(** * f1-results-practice: the practice-results notifier of [main.py]

    A shallow embedding of [main.py] and the properties of its
    fetch / select / format / dedupe pipeline.

    The program is dynamically typed: everything it handles comes out of
    [json.loads] (the two API payloads and the state file).  The embedding
    keeps that: one type [value] of JSON-shaped Python objects, Python's
    truthiness, [==], [<] and [or] on it, and a result type for the
    exceptions the operators raise on the wrong shape.

    The outside world (HTTP, the state file, the clock database) is an
    explicit environment [env] whose answers the program consumes, and every
    observable action is recorded in a trace of [event]s. *)

From Stdlib Require Import List ZArith NArith Bool String Ascii Lia.
From Stdlib Require Import Permutation Sorted DecimalString.
Import ListNotations.

Set Implicit Arguments.
Local Open Scope Z_scope.

(* ================================================================== *)
(** ** Python strings *)

(** A Python [str] is a sequence of Unicode code points.  Slicing takes
    code points and [<] compares code point by code point, so the model is
    a list of code points rather than a list of bytes. *)
Definition char := N.
Definition str := list char.

(** ASCII literals of the source. *)
Definition lit (s : string) : str :=
  map N_of_ascii (list_ascii_of_string s).

(** U+2014 EM DASH, used in the title and in every line. *)
Definition em_dash : str := [8212%N].

Fixpoint str_eqb (a b : str) : bool :=
  match a, b with
  | [], [] => true
  | x :: a', y :: b' => N.eqb x y && str_eqb a' b'
  | _, _ => false
  end.

(** [a < b] on [str]: lexicographic on code points, a proper prefix first. *)
Fixpoint str_ltb (a b : str) : bool :=
  match a, b with
  | _, [] => false
  | [], _ :: _ => true
  | x :: a', y :: b' =>
      if N.ltb x y then true
      else if N.eqb x y then str_ltb a' b' else false
  end.

(** [a <= b], that is [not (b < a)]. *)
Definition str_leb (a b : str) : bool := negb (str_ltb b a).

(** [s.replace(c, new)] for a one-character pattern [c]. *)
Definition str_replace (c : char) (new : str) (s : str) : str :=
  flat_map (fun x => if N.eqb x c then new else [x]) s.

Definition char_in (chars : str) (c : char) : bool :=
  existsb (N.eqb c) chars.

Fixpoint lstrip (chars s : str) : str :=
  match s with
  | [] => []
  | c :: s' => if char_in chars c then lstrip chars s' else s
  end.

Definition rstrip (chars s : str) : str := rev (lstrip chars (rev s)).

(** [s.strip(chars)]: drops leading and trailing characters that occur in
    [chars]. *)
Definition strip (chars s : str) : str := rstrip chars (lstrip chars s).

(** [sep.join(parts)]. *)
Fixpoint join (sep : str) (parts : list str) : str :=
  match parts with
  | [] => []
  | [p] => p
  | p :: rest => p ++ sep ++ join sep rest
  end.

(** [l[:n]] for any integer [n]: a negative bound counts from the end. *)
Definition slice_to {A} (l : list A) (n : Z) : list A :=
  if n <? 0 then firstn (Z.to_nat (Z.of_nat (List.length l) + n)) l
  else firstn (Z.to_nat n) l.

(* ================================================================== *)
(** ** Python objects out of JSON *)

(** What [json.loads] builds: [None], [bool], [int], [str], [list] and
    [dict] with string keys.  A dict keeps insertion order; it is an
    association list read at the first binding of a key.  Numbers are
    Python's unbounded [int]; JSON numbers with a fraction or an exponent
    (Python [float]) are outside this model. *)
#[warnings="-register-all"]
Inductive value : Type :=
| VNone
| VBool (b : bool)
| VInt (z : Z)
| VStr (s : str)
| VList (l : list value)
| VDict (d : list (str * value)).

Definition dict := list (str * value).

Fixpoint lookup {A} (d : list (str * A)) (k : str) : option A :=
  match d with
  | [] => None
  | (k', v) :: d' => if str_eqb k' k then Some v else lookup d' k
  end.

(** [d[k] = v]: overwrites the binding in place, or appends a new one. *)
Fixpoint dict_set {A} (d : list (str * A)) (k : str) (v : A) : list (str * A) :=
  match d with
  | [] => [(k, v)]
  | (k', v') :: d' =>
      if str_eqb k' k then (k', v) :: d' else (k', v') :: dict_set d' k v
  end.

(** [d.get(k)]: [None] when the key is missing. *)
Definition dict_get (d : dict) (k : str) : value :=
  match lookup d k with
  | Some v => v
  | None => VNone
  end.

(** Truth value of an object, as [if x], [not x] and [x or y] test it. *)
Definition truthy (v : value) : bool :=
  match v with
  | VNone => false
  | VBool b => b
  | VInt z => negb (z =? 0)
  | VStr s => match s with [] => false | _ => true end
  | VList l => match l with [] => false | _ => true end
  | VDict d => match d with [] => false | _ => true end
  end.

(** [a or b]. *)
Definition py_or (a b : value) : value := if truthy a then a else b.

(** [a == b].  [bool] is a subclass of [int]; lists are equal
    elementwise; dicts are equal when they have the same keys with equal
    values, whatever the order. *)
Fixpoint py_eq (a b : value) {struct a} : bool :=
  match a, b with
  | VNone, VNone => true
  | VBool x, VBool y => Bool.eqb x y
  | VBool x, VInt y => Z.b2z x =? y
  | VInt x, VBool y => x =? Z.b2z y
  | VInt x, VInt y => x =? y
  | VStr x, VStr y => str_eqb x y
  | VList x, VList y =>
      (fix go (x y : list value) : bool :=
         match x, y with
         | [], [] => true
         | u :: x', v :: y' => py_eq u v && go x' y'
         | _, _ => false
         end) x y
  | VDict x, VDict y =>
      Nat.eqb (List.length x) (List.length y) &&
      (fix go (x : list (str * value)) : bool :=
         match x with
         | [] => true
         | (k, u) :: x' =>
             match lookup y k with
             | Some v => py_eq u v
             | None => false
             end && go x'
         end) x
  | _, _ => false
  end.

(** Exceptions, by class. *)
Inductive exn : Type :=
| TypeError
| AttributeError
| ValueError
| RequestException   (* transport error, bad status, undecodable body *)
| OSError.

Inductive result (A : Type) : Type :=
| Ok (a : A)
| Raise (e : exn).
Arguments Ok {A} a.
Arguments Raise {A} e.

Definition rbind {A B} (r : result A) (k : A -> result B) : result B :=
  match r with
  | Ok a => k a
  | Raise e => Raise e
  end.

(** [a < b].  Defined between numbers, between strings and between lists
    (at the first pair of unequal elements, else by length); a [TypeError]
    otherwise. *)
Fixpoint py_lt (a b : value) {struct a} : result bool :=
  match a, b with
  | VBool x, VBool y => Ok (Z.b2z x <? Z.b2z y)
  | VBool x, VInt y => Ok (Z.b2z x <? y)
  | VInt x, VBool y => Ok (x <? Z.b2z y)
  | VInt x, VInt y => Ok (x <? y)
  | VStr x, VStr y => Ok (str_ltb x y)
  | VList x, VList y =>
      (fix go (x y : list value) : result bool :=
         match x, y with
         | _, [] => Ok false
         | [], _ :: _ => Ok true
         | u :: x', v :: y' => if py_eq u v then go x' y' else py_lt u v
         end) x y
  | _, _ => Raise TypeError
  end.

(** [x.get(k)] on an arbitrary object: only a dict has the method. *)
Definition get (x : value) (k : str) : result value :=
  match x with
  | VDict d => Ok (dict_get d k)
  | _ => Raise AttributeError
  end.

(** [x[k] = v] with a string key. *)
Definition setitem (x : value) (k : str) (v : value) : result value :=
  match x with
  | VDict d => Ok (VDict (dict_set d k v))
  | _ => Raise TypeError
  end.

(** [x[:1]]: a prefix of a string or of a list; an error on anything
    else (a [TypeError]; for a dict a [KeyError] from Python 3.12 on,
    which this model does not tell apart). *)
Definition slice1 (x : value) : result value :=
  match x with
  | VStr s => Ok (VStr (firstn 1 s))
  | VList l => Ok (VList (firstn 1 l))
  | _ => Raise TypeError
  end.

(** The items a [for] loop, a comprehension or [sorted] draws from [x]. *)
Definition iter (x : value) : result (list value) :=
  match x with
  | VList l => Ok l
  | VDict d => Ok (map (fun kv => VStr (fst kv)) d)
  | VStr s => Ok (map (fun c => VStr [c]) s)
  | _ => Raise TypeError
  end.

(** [str(z)] for an [int]. *)
Definition str_of_int (z : Z) : str :=
  lit (NilZero.string_of_int (Z.to_int z)).

(* ================================================================== *)
(** ** Sorting with a key function *)

(** [list.sort(key=f)] and [sorted(l, key=f)]: every key is computed
    first, then the items are put in ascending key order using [<] on the
    keys only, items with equal keys staying in their input order.  An
    exception raised by [f] or by [<] propagates.  The model is a stable
    insertion sort over (key, item) pairs. *)
Section Sort.
Variable key : value -> result value.

Fixpoint keyed (l : list value) : result (list (value * value)) :=
  match l with
  | [] => Ok []
  | x :: l' =>
      rbind (key x) (fun k =>
      rbind (keyed l') (fun kl => Ok ((k, x) :: kl)))
  end.

(** Puts [x] in front of the first item whose key is not below its own. *)
Fixpoint insert (x : value * value) (s : list (value * value))
  : result (list (value * value)) :=
  match s with
  | [] => Ok [x]
  | y :: s' =>
      rbind (py_lt (fst y) (fst x)) (fun below =>
      if below then rbind (insert x s') (fun r => Ok (y :: r))
      else Ok (x :: y :: s'))
  end.

Fixpoint isort (l : list (value * value)) : result (list (value * value)) :=
  match l with
  | [] => Ok []
  | x :: l' => rbind (isort l') (insert x)
  end.

Definition sort_by (l : list value) : result (list value) :=
  rbind (keyed l) (fun kl =>
  rbind (isort kl) (fun s => Ok (map snd s))).
End Sort.

(** The same sort when all keys are of one ordered kind: [K], read into
    objects by [inj] and compared by [ltb]. *)
Section TypedSortDefs.
Variables (K : Type) (inj : K -> value) (ltb : K -> K -> bool).

Definition inj_key (p : K * value) : value * value := (inj (fst p), snd p).

Fixpoint insert_by (x : K * value) (s : list (K * value)) : list (K * value) :=
  match s with
  | [] => [x]
  | y :: s' =>
      if ltb (fst y) (fst x) then y :: insert_by x s' else x :: y :: s'
  end.

Fixpoint isort_by (l : list (K * value)) : list (K * value) :=
  match l with
  | [] => []
  | x :: l' => insert_by x (isort_by l')
  end.

(** Ascending order of keys: the later key is not below the earlier. *)
Definition key_le (a b : K * value) : Prop := ltb (fst b) (fst a) = false.
End TypedSortDefs.

(* ================================================================== *)
(** ** The outside world *)

(** The text of the state file, up to what [json.loads] makes of it: a
    document that decodes to a value, or one that cannot be read or
    decoded. *)
Inductive document : Type :=
| Garbage
| Json (v : value).

Definition json_loads (doc : document) : result value :=
  match doc with
  | Json v => Ok v
  | Garbage => Raise ValueError
  end.

Definition json_dumps (v : value) : document := Json v.

(** How [Path.write_text] fails.  It opens the file in mode [w], which
    truncates it, and then writes the text: [open] raises with the file
    untouched (a missing directory, no permission), or the write raises
    with the file already truncated (text that the encoding rejects, a
    [UnicodeEncodeError] and so a [ValueError]; a full disk, an [OSError]).
    What is left of a truncated file is empty or a proper prefix of the
    dumped object, which [json.loads] rejects. *)
Inductive write_failure : Type :=
| OpenFails (x : exn)
| WriteFails (x : exn).

Definition raised_by (f : write_failure) : exn :=
  match f with
  | OpenFails x | WriteFails x => x
  end.

Definition left_by (f : write_failure) (file : option document)
  : option document :=
  match f with
  | OpenFails _ => file
  | WriteFails _ => Some Garbage
  end.

(** The module-level configuration read from the process environment, and
    the answers of everything the program calls but does not define. *)
Record env : Type := {
  DISCORD_WEBHOOK : option str;      (* os.environ.get("DISCORD_WEBHOOK") *)
  TOP_N : Z;                         (* int(os.environ.get("TOP_N", "10")) *)
  LOCAL_TZ : str;
  (** [GET /sessions?meeting_key=latest], through [raise_for_status] and
      [r.json()]. *)
  sessions_api : result value;
  (** [GET /session_result?session_key=sk], likewise. *)
  results_api : value -> result value;
  (** [requests.post(url, json={"content": c})]; the status is not read. *)
  webhook_api : str -> str -> result unit;
  (** Whether the call [STATE_FILE.write_text(...)] of this run returns,
      which is up to the file system and to the text written (the
      encoding of the locale may reject it); when it does not, how it
      fails. *)
  disk_writable : bool;
  write_error : write_failure;
  (** [fromisoformat(text).astimezone(ZoneInfo(tz)).strftime(...)]. *)
  local_strftime : str -> str -> result str;
  (** [str(x)] of a list or a dict. *)
  container_str : value -> str
}.

(** What a run does that can be seen from outside. *)
Inductive event : Type :=
| GetSessions
| GetResults (session_key : value)
| PostWebhook (url content : str)
| WriteState (doc : document)
| Print (msg : str).

(** The state file ([None]: no such file) and the events so far. *)
Record store : Type := {
  state_file : option document;
  trace : list event
}.

(** Computations that read and write the store and may raise; what was
    done before an exception stays done. *)
Definition M (A : Type) : Type := store -> result A * store.

Definition ret {A} (a : A) : M A := fun s => (Ok a, s).

Definition bind {A B} (m : M A) (k : A -> M B) : M B :=
  fun s =>
    match m s with
    | (Ok a, s') => k a s'
    | (Raise e, s') => (Raise e, s')
    end.

Definition lift {A} (r : result A) : M A := fun s => (r, s).

Definition emit (ev : event) : M unit :=
  fun s => (Ok tt, {| state_file := state_file s; trace := trace s ++ [ev] |}).

Definition print (msg : str) : M unit := emit (Print msg).

Declare Scope py_scope.
Delimit Scope py_scope with py.
Notation "x <- m ;; k" := (bind m (fun x => k))
  (at level 61, m at next level, right associativity) : py_scope.
Notation "m ;; k" := (bind m (fun _ => k))
  (at level 61, right associativity) : py_scope.
Notation "x <~ r ;; k" := (rbind r (fun x => k))
  (at level 61, r at next level, right associativity) : py_scope.
Local Open Scope py_scope.

(** [a or b] with [b] evaluated only when [a] is falsy. *)
Definition or_else (a : value) (b : result value) : result value :=
  if truthy a then Ok a else b.

(** An f-string field [{x}]: [str(x)]. *)
Definition fmt (e : env) (x : value) : str :=
  match x with
  | VNone => lit "None"
  | VBool true => lit "True"
  | VBool false => lit "False"
  | VInt z => str_of_int z
  | VStr s => s
  | VList _ | VDict _ => container_str e x
  end.

(* ================================================================== *)
(** ** The program *)

Definition last_posted_session_key : str := lit "last_posted_session_key".

Definition default_state : value := VDict [(last_posted_session_key, VNone)].

(** [load_state()]: the decoded state file, or the default state when the
    file is missing or reading and decoding it raises. *)
Definition load_state : M value :=
  fun s =>
    match state_file s with
    | Some doc =>
        match json_loads doc with
        | Ok v => (Ok v, s)
        | Raise _ => (Ok default_state, s)
        end
    | None => (Ok default_state, s)
    end.

(** [save_state(state)]: [STATE_FILE.write_text(json.dumps(state, ...))].
    A write that returns leaves the dumped state in the file; one that
    raises leaves the file as it was when [open] failed, and truncated,
    hence undecodable, when the write failed after it. *)
Definition save_state (e : env) (state : value) : M unit :=
  emit (WriteState (json_dumps state)) ;;
  fun s =>
    if disk_writable e
    then (Ok tt, {| state_file := Some (json_dumps state); trace := trace s |})
    else
      (Raise (raised_by (write_error e)),
       {| state_file := left_by (write_error e) (state_file s);
          trace := trace s |}).

(** The comprehension [[s for s in sessions if s.get("session_type") == "Practice"]]. *)
Fixpoint practice_of (sessions : list value) : result (list value) :=
  match sessions with
  | [] => Ok []
  | s :: rest =>
      t <~ get s (lit "session_type") ;;
      p <~ practice_of rest ;;
      Ok (if py_eq t (VStr (lit "Practice")) then s :: p else p)
  end.

(** The local function [sort_key] of [get_latest_practice_session]. *)
Definition sort_key (s : value) : result value :=
  de <~ get s (lit "date_end") ;;
  or_else de (
    ds <~ get s (lit "date_start") ;;
    or_else ds (Ok (VStr []))).

Definition get_latest_practice_session (e : env) : M value :=
  emit GetSessions ;;
  r <- lift (sessions_api e) ;;
  sessions <- lift (iter r) ;;
  practice <- lift (practice_of sessions) ;;
  match practice with
  | [] => ret VNone
  | _ :: _ =>
      sorted <- lift (sort_by sort_key practice) ;;
      ret (last sorted VNone)
  end.

(** The key [lambda x: x.get("position") or 9999]. *)
Definition position_key (x : value) : result value :=
  p <~ get x (lit "position") ;;
  or_else p (Ok (VInt 9999)).

Definition get_session_results (e : env) (session_key : value) : M (list value) :=
  emit (GetResults session_key) ;;
  r <- lift (results_api e session_key) ;;
  rows <- lift (iter r) ;;
  lift (sort_by position_key rows).

(** The body of the [try] of [format_when]: [iso.replace] exists on a
    [str] only. *)
Definition format_when_try (e : env) (iso : value) : result str :=
  match iso with
  | VStr s =>
      local_strftime e (LOCAL_TZ e) (str_replace 90%N (lit "+00:00") s)
  | _ => Raise AttributeError
  end.

Definition format_when (e : env) (meta : value) : result value :=
  de <~ get meta (lit "date_end") ;;
  iso <~ or_else de (get meta (lit "date_start")) ;;
  if negb (truthy iso) then Ok (VStr [])
  else
    match format_when_try e iso with
    | Ok text => Ok (VStr text)
    | Raise _ => Ok iso
    end.

Definition post_to_discord (e : env) (title : str) (lines : list str) : M unit :=
  match DISCORD_WEBHOOK e with
  | None | Some [] => print (lit "No DISCORD_WEBHOOK provided.")
  | Some url =>
      let content :=
        lit "**" ++ title ++ lit "**" ++ [10%N] ++ join [10%N] lines in
      emit (PostWebhook url content) ;;
      lift (webhook_api e url content)
  end.

(** The body of the [for row in results[:TOP_N]] loop of [main]: the line
    appended for one row. *)
Definition line_of (e : env) (row : value) : result str :=
  pos <~ get row (lit "position") ;;
  fn <~ get row (lit "driver_first_name") ;;
  first <~ slice1 (py_or fn (VStr [])) ;;
  ln <~ get row (lit "driver_last_name") ;;
  let last := py_or ln (VStr []) in
  let name := strip (lit ". ") (fmt e first ++ lit ". " ++ fmt e last) in
  tm <~ get row (lit "team_name") ;;
  let team := py_or tm (VStr []) in
  bl <~ get row (lit "best_lap_time") ;;
  lap <~ or_else bl (
    t <~ get row (lit "time") ;;
    or_else t (Ok (VStr []))) ;;
  Ok (fmt e pos ++ lit ". " ++ name ++ lit " " ++ em_dash ++ lit " "
      ++ fmt e team ++ lit "  " ++ fmt e lap).

Fixpoint lines_of (e : env) (rows : list value) : result (list str) :=
  match rows with
  | [] => Ok []
  | row :: rest =>
      l <~ line_of e row ;;
      ls <~ lines_of e rest ;;
      Ok (l :: ls)
  end.

(** Which [return] of [main] ended the run; the last one is the end of the
    function, after the post and the save. *)
Inductive outcome : Type :=
| NoSession
| NoKey
| AlreadyPosted
| NoResults
| Posted.

Definition main (e : env) : M outcome :=
  state <- load_state ;;
  sess <- get_latest_practice_session e ;;
  if negb (truthy sess) then
    print (lit "No practice session found.") ;; ret NoSession
  else
  sk <- lift (get sess (lit "session_key")) ;;
  if negb (truthy sk) then
    print (lit "Session has no key.") ;; ret NoKey
  else
  posted <- lift (get state last_posted_session_key) ;;
  if py_eq posted sk then
    print (lit "Already posted this session; skipping.") ;; ret AlreadyPosted
  else
  results <- get_session_results e sk ;;
  match results with
  | [] => print (lit "No results yet; try again next run.") ;; ret NoResults
  | _ :: _ =>
      gp <- lift (mn <~ get sess (lit "meeting_name") ;;
                  or_else mn (
                    cn <~ get sess (lit "country_name") ;;
                    or_else cn (Ok (VStr (lit "Grand Prix"))))) ;;
      sname <- lift (sn <~ get sess (lit "session_name") ;;
                     or_else sn (Ok (VStr (lit "Practice")))) ;;
      when <- lift (format_when e sess) ;;
      lines <- lift (lines_of e (slice_to results (TOP_N e))) ;;
      let title :=
        fmt e gp ++ lit " " ++ em_dash ++ lit " " ++ fmt e sname
        ++ lit " Results (" ++ fmt e when ++ lit ")" in
      post_to_discord e title lines ;;
      state' <- lift (setitem state last_posted_session_key sk) ;;
      save_state e state' ;;
      print (lit "Posted session " ++ fmt e sk ++ lit ".") ;;
      ret Posted
  end.

(** A run from a given state file, with an empty trace. *)
Definition run (e : env) (file : option document) : result outcome * store :=
  main e {| state_file := file; trace := [] |}.

(* ================================================================== *)
(** ** What the functions return *)

(** The state [load_state] returns for a given file. *)
Definition loaded (file : option document) : value :=
  match file with
  | Some (Json v) => v
  | _ => default_state
  end.

(** The value [state.get("last_posted_session_key")] of the dedupe gate. *)
Definition persisted_key (file : option document) : result value :=
  get (loaded file) last_posted_session_key.

(** The value [get_latest_practice_session] returns. *)
Definition resolve (e : env) : result value :=
  r <~ sessions_api e ;;
  sessions <~ iter r ;;
  practice <~ practice_of sessions ;;
  match practice with
  | [] => Ok VNone
  | _ :: _ =>
      sorted <~ sort_by sort_key practice ;;
      Ok (last sorted VNone)
  end.

(** The value [get_session_results] returns. *)
Definition fetch (e : env) (session_key : value) : result (list value) :=
  r <~ results_api e session_key ;;
  rows <~ iter r ;;
  sort_by position_key rows.

(** The store with further events recorded. *)
Definition logged (s : store) (evs : list event) : store :=
  {| state_file := state_file s; trace := trace s ++ evs |}.

(** The text sent to the webhook. *)
Definition content_of (title : str) (lines : list str) : str :=
  lit "**" ++ title ++ lit "**" ++ [10%N] ++ join [10%N] lines.

(* ================================================================== *)
(** ** Runs and their traces *)

(** Webhook calls in a trace. *)
Fixpoint posts (tr : list event) : nat :=
  match tr with
  | [] => 0
  | PostWebhook _ _ :: tr' => S (posts tr')
  | _ :: tr' => posts tr'
  end.

(** Successive runs, each starting from the state file the previous one
    left. *)
Fixpoint runs (es : list env) (file : option document)
  : list (result outcome * store) :=
  match es with
  | [] => []
  | e :: es' =>
      let r := run e file in
      r :: runs es' (state_file (snd r))
  end.

Fixpoint total_posts (rs : list (result outcome * store)) : nat :=
  match rs with
  | [] => 0
  | r :: rs' => (posts (trace (snd r)) + total_posts rs')%nat
  end.

(** The webhook calls made for the session [sk] over some runs: those of
    the runs that requested the results of [sk]. *)
Definition requested (sk : value) (tr : list event) : bool :=
  existsb (fun ev =>
             match ev with
             | GetResults k => py_eq k sk
             | _ => false
             end) tr.

Fixpoint posts_for (sk : value) (rs : list (result outcome * store)) : nat :=
  match rs with
  | [] => 0
  | r :: rs' =>
      ((if requested sk (trace (snd r)) then posts (trace (snd r)) else 0)
       + posts_for sk rs')%nat
  end.

(** The session the environment resolves has the key that [file]
    persists, up to [==]. *)
Definition resolves_persisted_key (file : option document) (e : env) : Prop :=
  exists sess sk posted,
    resolve e = Ok sess /\
    get sess (lit "session_key") = Ok sk /\
    persisted_key file = Ok posted /\
    py_eq posted sk = true.

(** What a run stopped by the gate leaves: the file as it was, one
    sessions request and one log line. *)
Definition skipped (file : option document) : result outcome * store :=
  (Ok AlreadyPosted,
   {| state_file := file;
      trace := [GetSessions;
                Print (lit "Already posted this session; skipping.")] |}).

(** The environment offers rows for [sk] that render to [lines], a
    webhook at [url] that answers and a write of the state file that
    returns. *)
Definition ready_to_post (e : env) (sk : value) (url : str) (lines : list str)
  : Prop :=
  exists r rows,
    fetch e sk = Ok (r :: rows) /\
    lines_of e (slice_to (r :: rows) (TOP_N e)) = Ok lines /\
    DISCORD_WEBHOOK e = Some url /\ url <> [] /\
    (forall c, webhook_api e url c = Ok tt) /\
    disk_writable e = true.

(* ================================================================== *)
(** ** The payloads read as typed data *)

(** An entry whose [session_type] is the string ["Practice"]. *)
Definition is_practice (x : value) : bool :=
  match x with
  | VDict d =>
      match lookup d (lit "session_type") with
      | Some (VStr t) => str_eqb t (lit "Practice")
      | _ => false
      end
  | _ => false
  end.

Definition is_dict (x : value) : Prop := exists d, x = VDict d.



(** A field that is missing, [null] or a string. *)
Definition text_or_absent (d : dict) (k : str) : Prop :=
  match lookup d k with
  | None | Some VNone | Some (VStr _) => True
  | Some _ => False
  end.


(** The position a row is ordered by: its [position], or 9999 when that is
    missing, [null] or 0. *)
Definition order_position (x : value) : Z :=
  match x with
  | VDict d =>
      match lookup d (lit "position") with
      | Some (VInt z) => if z =? 0 then 9999 else z
      | _ => 9999
      end
  | _ => 9999
  end.

(** The position a row would be ordered by if only an absent position
    were replaced: its [position], or 9999 when that is missing or
    [null]. *)
Definition stated_position (x : value) : Z :=
  match x with
  | VDict d =>
      match lookup d (lit "position") with
      | Some (VInt z) => z
      | _ => 9999
      end
  | _ => 9999
  end.

(** Ascending order under a reading of the rows. *)
Fixpoint ascending (k : value -> Z) (l : list value) : bool :=
  match l with
  | [] => true
  | x :: l' =>
      match l' with
      | [] => true
      | y :: _ => (k x <=? k y) && ascending k l'
      end
  end.

(** A row of the results payload: an object whose [position] is an
    integer or absent. *)
Definition result_object (x : value) : Prop :=
  exists d, x = VDict d /\
    match lookup d (lit "position") with
    | None | Some VNone | Some (VInt _) => True
    | Some _ => False
    end.

(** A well-formed persisted state: an object whose
    [last_posted_session_key], if there is one, is a string, an integer
    or [null]. *)
Definition well_formed_state (v : value) : Prop :=
  exists d, v = VDict d /\
    match lookup d last_posted_session_key with
    | None | Some VNone | Some (VStr _) | Some (VInt _) => True
    | Some _ => False
    end.

(** A state with no last-posted key: the key is missing or [null]. *)
Definition no_posted_key (v : value) : Prop :=
  exists d, v = VDict d /\
    (lookup d last_posted_session_key = None \/
     lookup d last_posted_session_key = Some VNone).

(** A field that is missing or [null]. *)
Definition absent (d : dict) (k : str) : Prop :=
  lookup d k = None \/ lookup d k = Some VNone.

(** The text [format_when] hands to the parser: [iso] with "Z" replaced
    by "+00:00". *)
Definition with_utc_offset (iso : str) : str :=
  str_replace 90%N (lit "+00:00") iso.

(** The replacement of a trailing "Z" alone. *)
Definition with_trailing_utc_offset (iso : str) : str :=
  match rev iso with
  | 90%N :: body => rev body ++ lit "+00:00"
  | _ => iso
  end.

(** The text of a field, empty when the field is absent. *)
Definition text_field (d : dict) (k : str) : str :=
  match lookup d k with
  | Some (VStr s) => s
  | _ => []
  end.

(** The position as printed: the number, or the marker [None]. *)
Definition position_text (d : dict) : str :=
  match lookup d (lit "position") with
  | Some (VInt z) => str_of_int z
  | _ => lit "None"
  end.

(** The line of a row in words:
    ["<position>. <first-initial>. <last name> — <team name>  <lap-or-time>"],
    the name segment stripped of periods and spaces at both ends. *)
Definition stated_line (x : value) : str :=
  match x with
  | VDict d =>
      let initial := firstn 1 (text_field d (lit "driver_first_name")) in
      let name :=
        strip (lit ". ")
              (initial ++ lit ". " ++ text_field d (lit "driver_last_name")) in
      let lap :=
        match text_field d (lit "best_lap_time") with
        | [] => text_field d (lit "time")
        | t => t
        end in
      position_text d ++ lit ". " ++ name ++ lit " " ++ em_dash ++ lit " "
      ++ text_field d (lit "team_name") ++ lit "  " ++ lap
  | _ => []
  end.

(** A row of the results payload with its fields typed: the position an
    integer or absent, the names, the team and the times strings or
    absent. *)
Definition result_row (x : value) : Prop :=
  exists d, x = VDict d /\
    result_object x /\
    text_or_absent d (lit "driver_first_name") /\
    text_or_absent d (lit "driver_last_name") /\
    text_or_absent d (lit "team_name") /\
    text_or_absent d (lit "best_lap_time") /\
    text_or_absent d (lit "time").

(* ================================================================== *)
(** ** The scenario of the spec *)

(** An environment that answers with the given payloads: a webhook is
    configured and answers, the write of the state file returns, the time
    zone data is unavailable (timestamps stay as received). *)
Definition answering (sessions results : value) : env :=
  {| DISCORD_WEBHOOK := Some (lit "https://discord.test/hook");
     TOP_N := 10;
     LOCAL_TZ := lit "Europe/Amsterdam";
     sessions_api := Ok sessions;
     results_api := fun _ => Ok results;
     webhook_api := fun _ _ => Ok tt;
     disk_writable := true;
     write_error := OpenFails OSError;
     local_strftime := fun _ _ => Raise ValueError;
     container_str := fun _ => lit "[...]" |}.

(** A result row that has a position only. *)
Definition placed (position : value) : value :=
  VDict [(lit "position", position)].

(** The practice session of the spec's end-to-end scenario. *)
Definition practice_1 : value :=
  VDict [(lit "session_key", VInt 9999);
         (lit "session_type", VStr (lit "Practice"));
         (lit "session_name", VStr (lit "Practice 1"));
         (lit "meeting_name", VStr (lit "Dutch Grand Prix"));
         (lit "date_end", VStr (lit "2024-08-23T11:30:00+00:00"))].

Definition driver (position : value) (first last team lap : string) : value :=
  VDict [(lit "position", position);
         (lit "driver_first_name", VStr (lit first));
         (lit "driver_last_name", VStr (lit last));
         (lit "team_name", VStr (lit team));
         (lit "best_lap_time", VStr (lit lap))].

Definition three_rows : list value :=
  [driver (VInt 2) "Max" "Verstappen" "Red Bull Racing" "1:10.9";
   driver (VInt 1) "Lando" "Norris" "McLaren" "1:10.7";
   VDict [(lit "position", VNone); (lit "driver_last_name", VStr (lit "Sainz"))]].

(** The same rows in the order [get_session_results] returns them. *)
Definition ranked_rows : list value :=
  [driver (VInt 1) "Lando" "Norris" "McLaren" "1:10.7";
   driver (VInt 2) "Max" "Verstappen" "Red Bull Racing" "1:10.9";
   VDict [(lit "position", VNone); (lit "driver_last_name", VStr (lit "Sainz"))]].

(** A session whose end timestamp is not a timestamp. *)
Definition undated_session : dict :=
  [(lit "session_type", VStr (lit "Practice"));
   (lit "date_end", VStr (lit "soon"))].

(** A loaded state with keys of its own. *)
Definition annotated_state : value :=
  VDict [(lit "note", VStr (lit "kept by hand"));
         (last_posted_session_key, VInt 9998);
         (lit "runs", VInt 41)].

(** The data source lists one practice session and has three rows for it. *)
Definition race_weekend : env :=
  answering (VList [practice_1]) (VList three_rows).

(** The same weekend before any result is in. *)
Definition before_results : env :=
  answering (VList [practice_1]) (VList []).

(** A session the data source lists without a usable key. *)
Definition keyless_weekend : env :=
  answering
    (VList [VDict [(lit "session_key", VInt 0);
                   (lit "session_type", VStr (lit "Practice"))]])
    (VList three_rows).

(** A weekend whose sessions are a qualifying, a session typed in lower
    case and a session without a type. *)
Definition no_practice_sessions : list value :=
  [VDict [(lit "session_key", VInt 1); (lit "session_type", VStr (lit "Qualifying"))];
   VDict [(lit "session_key", VInt 2); (lit "session_type", VStr (lit "practice"))];
   VDict [(lit "session_key", VInt 3)]].

(** A session with a key, a type and an end timestamp. *)
Definition session (key : Z) (type : string) (ends : string) : value :=
  VDict [(lit "session_key", VInt key);
         (lit "session_type", VStr (lit type));
         (lit "date_end", VStr (lit ends))].

(** Three practice sessions, two of them ending at the same time, and a
    race that ends later still. *)
Definition busy_weekend : list value :=
  [session 1 "Practice" "2024-08-23T11:30:00+00:00";
   session 2 "Practice" "2024-08-24T10:30:00+00:00";
   session 3 "Practice" "2024-08-24T10:30:00+00:00";
   session 4 "Race" "2024-08-25T15:00:00+00:00"].

(* ================================================================== *)
(** ** The steps of a run *)

(** The title [main] builds for a session: the three fields with their
    defaults, in the order [main] evaluates them. *)
Definition title_of (e : env) (sess : value) : result str :=
  gp <~ (mn <~ get sess (lit "meeting_name") ;;
         or_else mn (
           cn <~ get sess (lit "country_name") ;;
           or_else cn (Ok (VStr (lit "Grand Prix"))))) ;;
  sname <~ (sn <~ get sess (lit "session_name") ;;
            or_else sn (Ok (VStr (lit "Practice")))) ;;
  when <~ format_when e sess ;;
  Ok (fmt e gp ++ lit " " ++ em_dash ++ lit " " ++ fmt e sname
      ++ lit " Results (" ++ fmt e when ++ lit ")").

(** The end of [main]: the post, the state update, the save and the
    confirmation. *)
Definition deliver (e : env) (state sk : value) (title : str)
  (lines : list str) : M outcome :=
  post_to_discord e title lines ;;
  state' <- lift (setitem state last_posted_session_key sk) ;;
  save_state e state' ;;
  print (lit "Posted session " ++ fmt e sk ++ lit ".") ;;
  ret Posted.

(** The run got past the dedupe gate: the state loaded as the dict [d], a
    session was resolved, its key [sk] is true and is not the persisted
    one. *)
Definition passes_gate (e : env) (file : option document)
  (sess sk : value) (d : dict) : Prop :=
  loaded file = VDict d /\
  resolve e = Ok sess /\
  get sess (lit "session_key") = Ok sk /\
  truthy sk = true /\
  py_eq (dict_get d last_posted_session_key) sk = false.

(** There were rows for [sk], and the title and the lines of the first
    [TOP_N] of them were built. *)
Definition rendered (e : env) (sess sk : value) (title : str)
  (lines : list str) : Prop :=
  exists r rows,
    fetch e sk = Ok (r :: rows) /\
    title_of e sess = Ok title /\
    lines_of e (slice_to (r :: rows) (TOP_N e)) = Ok lines.

(** What [post_to_discord] left in the trace when it returned: the call
    of the configured webhook, which answered, or the notice that none is
    configured. *)
Definition notified (e : env) (title : str) (lines : list str) (ev : event)
  : Prop :=
  (exists url,
     DISCORD_WEBHOOK e = Some url /\ url <> [] /\
     ev = PostWebhook url (content_of title lines) /\
     webhook_api e url (content_of title lines) = Ok tt) \/
  ((DISCORD_WEBHOOK e = None \/ DISCORD_WEBHOOK e = Some []) /\
   ev = Print (lit "No DISCORD_WEBHOOK provided.")).

(** The ways a run from [file] can go, each with what it returns or
    raises, the state file it leaves and its trace. *)
Inductive run_path (e : env) (file : option document)
  : result outcome * store -> Prop :=
| sessions_failed x :
    resolve e = Raise x ->
    run_path e file
      (Raise x, {| state_file := file; trace := [GetSessions] |})
| found_no_session sess :
    resolve e = Ok sess -> truthy sess = false ->
    run_path e file
      (Ok NoSession,
       {| state_file := file;
          trace := [GetSessions; Print (lit "No practice session found.")] |})
| found_no_key sess sk :
    resolve e = Ok sess -> get sess (lit "session_key") = Ok sk ->
    truthy sk = false ->
    run_path e file
      (Ok NoKey,
       {| state_file := file;
          trace := [GetSessions; Print (lit "Session has no key.")] |})
| state_unusable sess sk x :
    resolve e = Ok sess -> get sess (lit "session_key") = Ok sk ->
    truthy sk = true -> persisted_key file = Raise x ->
    run_path e file
      (Raise x, {| state_file := file; trace := [GetSessions] |})
| skipped_as_posted sess sk posted :
    resolve e = Ok sess -> get sess (lit "session_key") = Ok sk ->
    truthy sk = true -> persisted_key file = Ok posted ->
    py_eq posted sk = true ->
    run_path e file (skipped file)
| results_failed sess sk d x :
    passes_gate e file sess sk d -> fetch e sk = Raise x ->
    run_path e file
      (Raise x,
       {| state_file := file; trace := [GetSessions; GetResults sk] |})
| found_no_results sess sk d :
    passes_gate e file sess sk d -> fetch e sk = Ok [] ->
    run_path e file
      (Ok NoResults,
       {| state_file := file;
          trace := [GetSessions; GetResults sk;
                    Print (lit "No results yet; try again next run.")] |})
| rendering_failed sess sk d r rows x :
    passes_gate e file sess sk d -> fetch e sk = Ok (r :: rows) ->
    (title_of e sess = Raise x \/
     lines_of e (slice_to (r :: rows) (TOP_N e)) = Raise x) ->
    run_path e file
      (Raise x,
       {| state_file := file; trace := [GetSessions; GetResults sk] |})
| post_failed sess sk d title lines url x :
    passes_gate e file sess sk d -> rendered e sess sk title lines ->
    DISCORD_WEBHOOK e = Some url -> url <> [] ->
    webhook_api e url (content_of title lines) = Raise x ->
    run_path e file
      (Raise x,
       {| state_file := file;
          trace := [GetSessions; GetResults sk;
                    PostWebhook url (content_of title lines)] |})
| write_failed sess sk d title lines ev :
    passes_gate e file sess sk d -> rendered e sess sk title lines ->
    notified e title lines ev -> disk_writable e = false ->
    run_path e file
      (Raise (raised_by (write_error e)),
       {| state_file := left_by (write_error e) file;
          trace := [GetSessions; GetResults sk; ev;
                    WriteState
                      (json_dumps (VDict (dict_set d last_posted_session_key sk)))] |})
| posted_and_saved sess sk d title lines ev :
    passes_gate e file sess sk d -> rendered e sess sk title lines ->
    notified e title lines ev -> disk_writable e = true ->
    run_path e file
      (Ok Posted,
       {| state_file :=
            Some (json_dumps (VDict (dict_set d last_posted_session_key sk)));
          trace := [GetSessions; GetResults sk; ev;
                    WriteState
                      (json_dumps (VDict (dict_set d last_posted_session_key sk)));
                    Print (lit "Posted session " ++ fmt e sk ++ lit ".")] |}).

(** Results requests and writes in a trace. *)
Fixpoint results_requests (tr : list event) : nat :=
  match tr with
  | [] => 0
  | GetResults _ :: tr' => S (results_requests tr')
  | _ :: tr' => results_requests tr'
  end.

Fixpoint writes (tr : list event) : nat :=
  match tr with
  | [] => 0
  | WriteState _ :: tr' => S (writes tr')
  | _ :: tr' => writes tr'
  end.

Fixpoint sessions_requests (tr : list event) : nat :=
  match tr with
  | [] => 0
  | GetSessions :: tr' => S (sessions_requests tr')
  | _ :: tr' => sessions_requests tr'
  end.

(** A row whose [position] is a non-empty string. *)
Definition text_position (x : value) : Prop :=
  exists d c t, x = VDict d /\ lookup d (lit "position") = Some (VStr (c :: t)).

(** Keyed items by the kind of their key. *)
Definition int_key (p : value * value) : Prop := exists z, fst p = VInt z.
Definition str_key (p : value * value) : Prop := exists t, fst p = VStr t.

(** The title in words: the meeting name, else the country name, else
    "Grand Prix"; the session name, else "Practice"; the formatted time. *)
Definition stated_title (sd : dict) (when : str) : str :=
  let gp :=
    match text_field sd (lit "meeting_name") with
    | [] =>
        match text_field sd (lit "country_name") with
        | [] => lit "Grand Prix"
        | t => t
        end
    | t => t
    end in
  let sname :=
    match text_field sd (lit "session_name") with
    | [] => lit "Practice"
    | t => t
    end in
  gp ++ lit " " ++ em_dash ++ lit " " ++ sname
  ++ lit " Results (" ++ when ++ lit ")".

(** The name segment of a line: initial, period, space and surname,
    stripped of periods and spaces at both ends. *)
Definition name_segment (d : dict) : str :=
  strip (lit ". ")
        (firstn 1 (text_field d (lit "driver_first_name"))
         ++ lit ". " ++ text_field d (lit "driver_last_name")).

(** A string that neither begins nor ends with a character of [chars]. *)
Definition clean_ends (chars s : str) : Prop :=
  (forall c, hd_error s = Some c -> char_in chars c = false) /\
  (forall c, hd_error (rev s) = Some c -> char_in chars c = false).

(* ================================================================== *)
(** ** Variations on the scenario *)

(** The same environment with another webhook setting, webhook answer
    and outcome of the write. *)
Definition delivering (hook : option str) (answer : result unit)
  (disk : bool) (e : env) : env :=
  {| DISCORD_WEBHOOK := hook;
     TOP_N := TOP_N e;
     LOCAL_TZ := LOCAL_TZ e;
     sessions_api := sessions_api e;
     results_api := results_api e;
     webhook_api := fun _ _ => answer;
     disk_writable := disk;
     write_error := write_error e;
     local_strftime := local_strftime e;
     container_str := container_str e |}.

(** The same environment with a write of the state file that fails. *)
Definition failing_write (f : write_failure) (e : env) : env :=
  {| DISCORD_WEBHOOK := DISCORD_WEBHOOK e;
     TOP_N := TOP_N e;
     LOCAL_TZ := LOCAL_TZ e;
     sessions_api := sessions_api e;
     results_api := results_api e;
     webhook_api := webhook_api e;
     disk_writable := false;
     write_error := f;
     local_strftime := local_strftime e;
     container_str := container_str e |}.

(** The same environment with another [TOP_N] and another clock. *)
Definition listing (top_n : Z) (clock : str -> str -> result str) (e : env)
  : env :=
  {| DISCORD_WEBHOOK := DISCORD_WEBHOOK e;
     TOP_N := top_n;
     LOCAL_TZ := LOCAL_TZ e;
     sessions_api := sessions_api e;
     results_api := results_api e;
     webhook_api := webhook_api e;
     disk_writable := disk_writable e;
     write_error := write_error e;
     local_strftime := clock;
     container_str := container_str e |}.

(** The same environment with a data source that answers otherwise. *)
Definition sourcing (sessions : result value)
  (results : value -> result value) (e : env) : env :=
  {| DISCORD_WEBHOOK := DISCORD_WEBHOOK e;
     TOP_N := TOP_N e;
     LOCAL_TZ := LOCAL_TZ e;
     sessions_api := sessions;
     results_api := results;
     webhook_api := webhook_api e;
     disk_writable := disk_writable e;
     write_error := write_error e;
     local_strftime := local_strftime e;
     container_str := container_str e |}.

Definition hook_url : str := lit "https://discord.test/hook".

(** The fields of [practice_1]. *)
Definition practice_1_fields : dict :=
  [(lit "session_key", VInt 9999);
   (lit "session_type", VStr (lit "Practice"));
   (lit "session_name", VStr (lit "Practice 1"));
   (lit "meeting_name", VStr (lit "Dutch Grand Prix"));
   (lit "date_end", VStr (lit "2024-08-23T11:30:00+00:00"))].

(** The title, the lines and the message of the race weekend, the
    timestamp as received. *)
Definition race_title : str :=
  lit "Dutch Grand Prix " ++ em_dash
  ++ lit " Practice 1 Results (2024-08-23T11:30:00+00:00)".

Definition race_lines : list str := map stated_line ranked_rows.

Definition race_content : str := content_of race_title race_lines.

(** The state the race weekend leaves. *)
Definition race_state : dict := [(last_posted_session_key, VInt 9999)].

(** No webhook configured; a webhook that is down; a disk that fills up
    during the write; a directory that refuses the file; a state that
    cannot be encoded; a data source that is down, at once or at the
    results. *)
Definition no_webhook : env := delivering None (Ok tt) true race_weekend.
Definition webhook_down : env :=
  delivering (Some hook_url) (Raise RequestException) true race_weekend.
Definition disk_full : env :=
  failing_write (WriteFails OSError) race_weekend.
Definition read_only_directory : env :=
  failing_write (OpenFails OSError) race_weekend.
Definition unencodable_state : env :=
  failing_write (WriteFails ValueError) race_weekend.
Definition source_down : env :=
  sourcing (Raise RequestException) (fun _ => Raise RequestException)
           race_weekend.
Definition results_down : env :=
  sourcing (Ok (VList [practice_1])) (fun _ => Raise RequestException)
           race_weekend.

(** The second practice session of the weekend, and the data source once
    it lists both. *)
Definition practice_2 : value :=
  VDict [(lit "session_key", VInt 10000);
         (lit "session_type", VStr (lit "Practice"));
         (lit "session_name", VStr (lit "Practice 2"));
         (lit "meeting_name", VStr (lit "Dutch Grand Prix"));
         (lit "date_end", VStr (lit "2024-08-23T15:00:00+00:00"))].

Definition later_that_day : env :=
  answering (VList [practice_1; practice_2]) (VList three_rows).

(** A timestamp with a "Z" that is not its last character, and Python's
    answers on the two readings of it for the zone Europe/Amsterdam:
    [fromisoformat] rejects the timestamp as it stands and reads
    "+00:00:30" as an offset of thirty seconds.  Other texts are no part
    of the example and are answered as unreadable. *)
Definition offset_stamp : str := lit "2024-05-18T10:30:00Z:30".

Definition offset_clock : str -> str -> result str :=
  fun _ text =>
    if str_eqb text (lit "2024-05-18T10:30:00+00:00:30")
    then Ok (lit "Sat 18 May 2024 12:29 CEST")
    else Raise ValueError.

Definition offset_session : dict :=
  [(lit "session_type", VStr (lit "Practice"));
   (lit "date_end", VStr offset_stamp)].

(** A session that starts at a time given with a "Z". *)
Definition zulu_session : dict :=
  [(lit "session_type", VStr (lit "Practice"));
   (lit "date_start", VStr (lit "2024-08-23T11:30:00Z"))].

(** A clock that knows the zone. *)
Definition amsterdam_clock : str -> str -> result str :=
  fun _ _ => Ok (lit "Fri 23 Aug 2024 13:30 CEST").

(** A weekend with one practice session, whose end is given in seconds,
    and a race. *)
Definition odd_practice : value :=
  VDict [(lit "session_key", VInt 7);
         (lit "session_type", VStr (lit "Practice"));
         (lit "date_end", VInt 1724412600)].

Definition odd_weekend : list value :=
  [session 8 "Race" "2024-08-25T15:00:00+00:00"; odd_practice].

(** A row whose surname is written with a closing period, and a row
    without first name. *)
Definition junior : dict :=
  [(lit "position", VInt 4);
   (lit "driver_first_name", VStr (lit "Carlos"));
   (lit "driver_last_name", VStr (lit "Sainz Jr."));
   (lit "team_name", VStr (lit "Ferrari"))].

Definition surname_only : dict :=
  [(lit "position", VNone); (lit "driver_last_name", VStr (lit "Sainz"))].

(* ================================================================== *)
(** ** Facts about strings and objects *)

Lemma str_eqb_eq (a b : str) : str_eqb a b = true <-> a = b.
Proof.
  revert b; induction a as [|x a IH]; intros [|y b]; simpl;
    try (split; (reflexivity || discriminate)).
  rewrite andb_true_iff, N.eqb_eq, IH.
  split; [intros [-> ->]; reflexivity | intros H; inversion H; auto].
Qed.

Lemma str_eqb_refl (a : str) : str_eqb a a = true.
Proof. apply str_eqb_eq; reflexivity. Qed.

Lemma str_eqb_neq (a b : str) : str_eqb a b = false <-> a <> b.
Proof.
  rewrite <- str_eqb_eq. destruct (str_eqb a b); split; congruence.
Qed.

Lemma str_ltb_irrefl (a : str) : str_ltb a a = false.
Proof.
  induction a as [|x a IH]; simpl; [reflexivity|].
  rewrite N.ltb_irrefl, N.eqb_refl. exact IH.
Qed.

Lemma str_ltb_trans (a b c : str) :
  str_ltb a b = true -> str_ltb b c = true -> str_ltb a c = true.
Proof.
  revert b c; induction a as [|x a IH]; intros [|y b] [|z c]; simpl;
    try discriminate; try reflexivity.
  destruct (N.ltb_spec x y), (N.ltb_spec y z), (N.ltb_spec x z);
    try reflexivity; try lia;
    destruct (N.eqb_spec x y), (N.eqb_spec y z), (N.eqb_spec x z);
    try discriminate; try lia; eauto.
Qed.

(** The order is total: of two strings that are not equal one is below
    the other. *)
Lemma str_ltb_total (a b : str) :
  str_ltb a b = false -> str_ltb b a = false -> a = b.
Proof.
  revert b; induction a as [|x a IH]; intros [|y b]; simpl;
    try discriminate; try reflexivity.
  destruct (N.ltb_spec x y), (N.ltb_spec y x); try discriminate; try lia.
  destruct (N.eqb_spec x y), (N.eqb_spec y x); try discriminate; try lia.
  intros; f_equal; auto.
Qed.

Lemma str_ltb_asym (a b : str) : str_ltb a b = true -> str_ltb b a = false.
Proof.
  intros H. destruct (str_ltb b a) eqn:E; [|reflexivity].
  rewrite <- (str_ltb_irrefl a). symmetry. eapply str_ltb_trans; eauto.
Qed.

Lemma str_leb_refl (a : str) : str_leb a a = true.
Proof. unfold str_leb. rewrite str_ltb_irrefl. reflexivity. Qed.

Lemma str_ltb_leb (a b : str) : str_ltb a b = true -> str_leb a b = true.
Proof. intros H. unfold str_leb. rewrite (str_ltb_asym _ _ H). reflexivity. Qed.

Lemma str_leb_trans (a b c : str) :
  str_leb a b = true -> str_leb b c = true -> str_leb a c = true.
Proof.
  unfold str_leb. rewrite !negb_true_iff. intros Hba Hcb.
  destruct (str_ltb c a) eqn:Hca; [|reflexivity].
  destruct (str_ltb a b) eqn:Hab.
  - rewrite <- Hcb. symmetry. eapply str_ltb_trans; eauto.
  - assert (a = b) by (apply str_ltb_total; assumption). subst. congruence.
Qed.

Lemma str_leb_ltb_trans (a b c : str) :
  str_leb a b = true -> str_ltb b c = true -> str_ltb a c = true.
Proof.
  unfold str_leb. rewrite negb_true_iff. intros Hba Hbc.
  destruct (str_ltb a b) eqn:Hab.
  - eapply str_ltb_trans; eauto.
  - assert (a = b) by (apply str_ltb_total; assumption). subst. assumption.
Qed.

(** [x == "..."] holds for that very string only. *)
Lemma py_eq_str (x : value) (s : str) : py_eq x (VStr s) = true <-> x = VStr s.
Proof.
  destruct x; simpl; try (split; [discriminate | congruence]).
  rewrite str_eqb_eq. split; congruence.
Qed.

(** Equal objects have the same truth value. *)
Lemma py_eq_truthy (a b : value) : py_eq a b = true -> truthy a = truthy b.
Proof.
  destruct a as [|x|x|x|x|x], b as [|y|y|y|y|y]; cbn [py_eq truthy];
    try discriminate; try reflexivity.
  - destruct x, y; simpl; congruence.
  - intros H; apply Z.eqb_eq in H; subst; destruct x; reflexivity.
  - intros H; apply Z.eqb_eq in H; subst; destruct y; reflexivity.
  - intros H; apply Z.eqb_eq in H; subst; reflexivity.
  - intros H; apply str_eqb_eq in H; subst; reflexivity.
  - destruct x, y; congruence.
  - destruct x, y; simpl; congruence.
Qed.

Lemma lookup_dict_set_eq {A} (d : list (str * A)) (k : str) (v : A) :
  lookup (dict_set d k v) k = Some v.
Proof.
  induction d as [|[k' v'] d IH]; simpl.
  - rewrite str_eqb_refl. reflexivity.
  - destruct (str_eqb k' k) eqn:E; simpl; rewrite E; auto.
Qed.

Lemma lookup_dict_set_ne {A} (d : list (str * A)) (k k' : str) (v : A) :
  k' <> k -> lookup (dict_set d k v) k' = lookup d k'.
Proof.
  intros Hne. induction d as [|[k0 v0] d IH]; simpl.
  - apply str_eqb_neq in Hne.
    destruct (str_eqb k k') eqn:E; [|reflexivity].
    apply str_eqb_eq in E. subst. rewrite str_eqb_refl in Hne. discriminate.
  - destruct (str_eqb k0 k) eqn:E; simpl.
    + destruct (str_eqb k0 k') eqn:E'; [|reflexivity].
      apply str_eqb_eq in E, E'. congruence.
    + destruct (str_eqb k0 k'); auto.
Qed.

(** Assignment keeps the keys and their order. *)
Lemma dict_set_keys {A} (d : list (str * A)) (k : str) (v : A) :
  lookup d k <> None -> map fst (dict_set d k v) = map fst d.
Proof.
  induction d as [|[k0 v0] d IH]; simpl; [congruence|].
  destruct (str_eqb k0 k) eqn:E; simpl; intros H; [reflexivity|].
  f_equal; auto.
Qed.

(* ================================================================== *)
(** ** Facts about sorting *)

(** Whatever the keys, a sort that returns has only moved the items. *)
Lemma keyed_snd (key : value -> result value) (l : list value) kl :
  keyed key l = Ok kl -> map snd kl = l.
Proof.
  revert kl; induction l as [|x l IH]; simpl; intros kl H.
  - inversion H; reflexivity.
  - destruct (key x); simpl in H; [|discriminate].
    destruct (keyed key l); simpl in H; [|discriminate].
    inversion H; subst; simpl. f_equal; auto.
Qed.

Lemma insert_perm x s r : insert x s = Ok r -> Permutation (x :: s) r.
Proof.
  revert r; induction s as [|y s IH]; simpl; intros r H.
  - inversion H; auto.
  - destruct (py_lt (fst y) (fst x)) as [[|]|]; simpl in H; try discriminate.
    + destruct (insert x s) as [r'|]; simpl in H; [|discriminate].
      inversion H; subst.
      eapply perm_trans; [apply perm_swap|]. apply perm_skip. auto.
    + inversion H; auto.
Qed.

Lemma isort_perm l r : isort l = Ok r -> Permutation l r.
Proof.
  revert r; induction l as [|x l IH]; simpl; intros r H.
  - inversion H; auto.
  - destruct (isort l) as [s|]; simpl in H; [|discriminate].
    eapply perm_trans; [apply perm_skip, IH; reflexivity|].
    apply insert_perm; assumption.
Qed.

Lemma sort_by_perm key l r : sort_by key l = Ok r -> Permutation l r.
Proof.
  unfold sort_by. intros H.
  destruct (keyed key l) as [kl|] eqn:Hk; simpl in H; [|discriminate].
  destruct (isort kl) as [s|] eqn:Hs; simpl in H; [|discriminate].
  inversion H; subst.
  rewrite <- (keyed_snd _ _ Hk). apply Permutation_map, isort_perm, Hs.
Qed.

(** When all keys are of one ordered kind ([K], read into objects by
    [inj], compared by [ltb]) no comparison raises and the sort is the
    plain stable insertion sort on those keys. *)
Section TypedSort.
Variables (K : Type) (inj : K -> value) (ltb : K -> K -> bool).
Hypothesis py_lt_inj : forall a b, py_lt (inj a) (inj b) = Ok (ltb a b).

Lemma insert_inj x s :
  insert (inj_key inj x) (map (inj_key inj) s) = Ok (map (inj_key inj) (insert_by ltb x s)).
Proof.
  induction s as [|y s IH]; simpl; [reflexivity|].
  rewrite py_lt_inj; simpl.
  destruct (ltb (fst y) (fst x)); [|reflexivity].
  rewrite IH; reflexivity.
Qed.

Lemma isort_inj l : isort (map (inj_key inj) l) = Ok (map (inj_key inj) (isort_by ltb l)).
Proof.
  induction l as [|x l IH]; simpl; [reflexivity|].
  rewrite IH; simpl. apply insert_inj.
Qed.

(** The typed reading of a key function: [key x] is [inj (k x)]. *)
Lemma sort_by_typed (key : value -> result value) (k : value -> K) l :
  Forall (fun x => key x = Ok (inj (k x))) l ->
  sort_by key l = Ok (map snd (isort_by ltb (map (fun x => (k x, x)) l))).
Proof.
  intros Hall. unfold sort_by.
  assert (Hk : keyed key l = Ok (map (inj_key inj) (map (fun x => (k x, x)) l))).
  { induction Hall as [|x l Hx _ IH]; simpl; [reflexivity|].
    rewrite Hx, IH; reflexivity. }
  rewrite Hk; simpl. rewrite isort_inj; simpl.
  rewrite map_map; reflexivity.
Qed.

Lemma insert_by_perm x s : Permutation (x :: s) (insert_by ltb x s).
Proof.
  induction s as [|y s IH]; simpl; [auto|].
  destruct (ltb (fst y) (fst x)); [|auto].
  eapply perm_trans; [apply perm_swap|]. auto.
Qed.

Lemma isort_by_perm l : Permutation l (isort_by ltb l).
Proof.
  induction l as [|x l IH]; simpl; [auto|].
  eapply perm_trans; [apply perm_skip, IH|]. apply insert_by_perm.
Qed.




(** Stability: the items whose keys fall in a class [f] that [ltb] never
    separates (keys equal to a given one) keep their input order. *)
Lemma insert_by_stable (f : K -> bool) x s :
  (forall a b, ltb a b = true -> f a = true -> f b = true -> False) ->
  filter (fun p => f (fst p)) (insert_by ltb x s)
  = filter (fun p => f (fst p)) (x :: s).
Proof.
  intros Hclass. induction s as [|y s IH]; [reflexivity|].
  cbn [insert_by]. destruct (ltb (fst y) (fst x)) eqn:Hyx; [|reflexivity].
  cbn [filter] in *. rewrite IH.
  destruct (f (fst y)) eqn:Hy, (f (fst x)) eqn:Hx; try reflexivity.
  exfalso. exact (Hclass _ _ Hyx Hy Hx).
Qed.

Lemma isort_by_stable (f : K -> bool) l :
  (forall a b, ltb a b = true -> f a = true -> f b = true -> False) ->
  filter (fun p => f (fst p)) (isort_by ltb l) = filter (fun p => f (fst p)) l.
Proof.
  intros Hclass. induction l as [|x l IH]; [reflexivity|].
  cbn [isort_by]. rewrite (insert_by_stable f x (isort_by ltb l) Hclass).
  cbn [filter]. rewrite IH. reflexivity.
Qed.

Hypothesis ltb_irrefl : forall a, ltb a a = false.
Hypothesis ltb_trans :
  forall a b c, ltb a b = true -> ltb b c = true -> ltb a c = true.
Hypothesis ltb_total :
  forall a b, ltb a b = false -> ltb b a = false -> a = b.

Lemma ltb_asym a b : ltb a b = true -> ltb b a = false.
Proof.
  intros Hab. destruct (ltb b a) eqn:Hba; [|reflexivity].
  rewrite <- (ltb_irrefl a). symmetry. eapply ltb_trans; eauto.
Qed.

Lemma not_ltb_trans a b c :
  ltb b a = false -> ltb c b = false -> ltb c a = false.
Proof.
  intros Hba Hcb. destruct (ltb c a) eqn:Hca; [|reflexivity].
  destruct (ltb b c) eqn:Hbc.
  - rewrite <- Hba. symmetry. eapply ltb_trans; eauto.
  - assert (b = c) by (apply ltb_total; assumption). congruence.
Qed.


Lemma insert_by_sorted x s :
  StronglySorted (key_le ltb) s -> StronglySorted (key_le ltb) (insert_by ltb x s).
Proof.
  induction 1 as [|y s Hs IH Hy]; simpl.
  - repeat constructor.
  - destruct (ltb (fst y) (fst x)) eqn:Hyx.
    + constructor; [assumption|].
      eapply Permutation_Forall; [apply insert_by_perm|].
      constructor; [|assumption].
      apply ltb_asym; assumption.
    + constructor.
      * constructor; assumption.
      * constructor; [exact Hyx|].
        eapply Forall_impl; [|exact Hy].
        intros z Hz. unfold key_le in *. eapply not_ltb_trans; eauto.
Qed.

Lemma isort_by_sorted l : StronglySorted (key_le ltb) (isort_by ltb l).
Proof.
  induction l as [|x l IH]; simpl; [constructor|].
  apply insert_by_sorted; assumption.
Qed.
End TypedSort.

Lemma logged_logged s evs evs' :
  logged (logged s evs) evs' = logged s (evs ++ evs').
Proof. unfold logged; simpl. rewrite <- app_assoc. reflexivity. Qed.

(* ================================================================== *)
(** ** What each function returns and records *)

Lemma load_state_eq s : load_state s = (Ok (loaded (state_file s)), s).
Proof.
  unfold load_state, loaded. destruct (state_file s) as [[|v]|]; reflexivity.
Qed.

Lemma get_latest_practice_session_eq e s :
  get_latest_practice_session e s = (resolve e, logged s [GetSessions]).
Proof.
  unfold get_latest_practice_session, resolve, bind, lift, emit, ret, logged.
  simpl.
  destruct (sessions_api e) as [r|]; simpl; [|reflexivity].
  destruct (iter r) as [sessions|]; simpl; [|reflexivity].
  destruct (practice_of sessions) as [[|p practice]|]; simpl; try reflexivity.
  destruct (sort_by sort_key (p :: practice)); reflexivity.
Qed.

Lemma get_session_results_eq e sk s :
  get_session_results e sk s = (fetch e sk, logged s [GetResults sk]).
Proof.
  unfold get_session_results, fetch, bind, lift, emit, logged. simpl.
  destruct (results_api e sk) as [r|]; simpl; [|reflexivity].
  destruct (iter r) as [rows|]; simpl; reflexivity.
Qed.

(** A resolved session is an entry of the payload typed "Practice". *)
Lemma practice_of_spec sessions practice :
  practice_of sessions = Ok practice ->
  forall x, In x practice ->
    In x sessions /\
    exists d, x = VDict d /\
      lookup d (lit "session_type") = Some (VStr (lit "Practice")).
Proof.
  revert practice; induction sessions as [|s rest IH]; simpl; intros practice H x Hx.
  - inversion H; subst. destruct Hx.
  - destruct (get s (lit "session_type")) as [t|] eqn:Ht; simpl in H; [|discriminate].
    destruct (practice_of rest) as [p|]; simpl in H; [|discriminate].
    inversion H; subst; clear H.
    destruct (py_eq t (VStr (lit "Practice"))) eqn:E.
    + destruct Hx as [<-|Hx].
      * split; [auto|]. apply py_eq_str in E. subst t.
        destruct s as [| | | | |d]; simpl in Ht; try discriminate.
        exists d. split; [reflexivity|].
        unfold dict_get in Ht. destruct (lookup d (lit "session_type")); congruence.
      * destruct (IH _ eq_refl x Hx); auto.
    + destruct (IH _ eq_refl x Hx); auto.
Qed.

Lemma last_In {A} (l : list A) (d : A) : l <> [] -> In (last l d) l.
Proof.
  induction l as [|x [|y l] IH]; intros H; [congruence|simpl; auto|].
  right. apply IH. discriminate.
Qed.

Lemma resolve_dict e d :
  resolve e = Ok (VDict d) ->
  lookup d (lit "session_type") = Some (VStr (lit "Practice")).
Proof.
  unfold resolve. intros H.
  destruct (sessions_api e) as [r|]; simpl in H; [|discriminate].
  destruct (iter r) as [sessions|]; simpl in H; [|discriminate].
  destruct (practice_of sessions) as [practice|] eqn:Hp; simpl in H; [|discriminate].
  destruct practice as [|p practice]; [discriminate|].
  destruct (sort_by sort_key (p :: practice)) as [sorted|] eqn:Hs;
    simpl in H; [|discriminate].
  inversion H as [Hl]; clear H.
  assert (Hin : In (VDict d) (p :: practice)).
  { pose proof (sort_by_perm _ _ Hs) as Hperm.
    eapply Permutation_in; [apply Permutation_sym, Hperm|].
    rewrite <- Hl. apply last_In.
    intros ->. apply Permutation_sym, Permutation_nil in Hperm.
    discriminate. }
  destruct (practice_of_spec _ Hp _ Hin) as (_ & d' & Hd & Hty).
  inversion Hd; subst; assumption.
Qed.

(** A resolved session that answers [get] is a non-empty dict, hence true. *)
Lemma resolve_truthy e sess k v :
  resolve e = Ok sess -> get sess k = Ok v -> truthy sess = true.
Proof.
  intros Hr Hg. destruct sess as [| | | | |d]; simpl in Hg; try discriminate.
  apply resolve_dict in Hr. destruct d; [discriminate|reflexivity].
Qed.

(** The run of a session whose key is the persisted one. *)
Lemma main_already_posted e s sess sk posted :
  resolve e = Ok sess -> truthy sess = true ->
  get sess (lit "session_key") = Ok sk -> truthy sk = true ->
  persisted_key (state_file s) = Ok posted ->
  py_eq posted sk = true ->
  main e s =
  (Ok AlreadyPosted,
   logged s [GetSessions; Print (lit "Already posted this session; skipping.")]).
Proof.
  intros Hr Hs Hk Hsk Hp Heq. unfold main, bind.
  rewrite load_state_eq, get_latest_practice_session_eq, Hr, Hs. cbn [negb].
  unfold lift at 1. rewrite Hk, Hsk. cbn [negb].
  unfold lift at 1. unfold persisted_key in Hp. cbn [state_file logged].
  rewrite Hp, Heq.
  unfold print, emit, ret, logged; simpl. rewrite <- app_assoc. reflexivity.
Qed.

Lemma main_no_session e s sess :
  resolve e = Ok sess -> truthy sess = false ->
  main e s =
  (Ok NoSession, logged s [GetSessions; Print (lit "No practice session found.")]).
Proof.
  intros Hr Hs. unfold main, bind.
  rewrite load_state_eq, get_latest_practice_session_eq, Hr, Hs. cbn [negb].
  unfold print, emit, ret, logged; simpl. rewrite <- app_assoc. reflexivity.
Qed.

Lemma main_no_key e s sess sk :
  resolve e = Ok sess -> truthy sess = true ->
  get sess (lit "session_key") = Ok sk -> truthy sk = false ->
  main e s =
  (Ok NoKey, logged s [GetSessions; Print (lit "Session has no key.")]).
Proof.
  intros Hr Hs Hk Hsk. unfold main, bind.
  rewrite load_state_eq, get_latest_practice_session_eq, Hr, Hs. cbn [negb].
  unfold lift at 1. rewrite Hk, Hsk. cbn [negb].
  unfold print, emit, ret, logged; simpl. rewrite <- app_assoc. reflexivity.
Qed.

Lemma main_no_results e s sess sk posted :
  resolve e = Ok sess -> truthy sess = true ->
  get sess (lit "session_key") = Ok sk -> truthy sk = true ->
  persisted_key (state_file s) = Ok posted ->
  py_eq posted sk = false ->
  fetch e sk = Ok [] ->
  main e s =
  (Ok NoResults,
   logged s [GetSessions; GetResults sk;
             Print (lit "No results yet; try again next run.")]).
Proof.
  intros Hr Hs Hk Hsk Hp Heq Hf. unfold main, bind.
  rewrite load_state_eq, get_latest_practice_session_eq, Hr, Hs. cbn [negb].
  unfold lift at 1. rewrite Hk, Hsk. cbn [negb].
  unfold lift at 1. unfold persisted_key in Hp. cbn [state_file logged].
  rewrite Hp, Heq, get_session_results_eq, Hf.
  unfold print, emit, ret, logged; simpl. rewrite <- !app_assoc. reflexivity.
Qed.

(** [format_when] returns for every session object. *)
Lemma format_when_total e d : exists v, format_when e (VDict d) = Ok v.
Proof.
  unfold format_when, or_else. cbn [get rbind].
  destruct (truthy (dict_get d (lit "date_end"))); cbn [rbind].
  - destruct (negb _); [eauto|]. destruct (format_when_try _ _); eauto.
  - destruct (negb _); [eauto|]. destruct (format_when_try _ _); eauto.
Qed.

(** The run that goes through: a resolved session with a key other than
    the persisted one, rows that render, a webhook that answers and a
    disk that takes the write. *)
Lemma main_posts e s d sd sk r rows lines url :
  loaded (state_file s) = VDict d ->
  resolve e = Ok (VDict sd) ->
  dict_get sd (lit "session_key") = sk -> truthy sk = true ->
  py_eq (dict_get d last_posted_session_key) sk = false ->
  fetch e sk = Ok (r :: rows) ->
  lines_of e (slice_to (r :: rows) (TOP_N e)) = Ok lines ->
  DISCORD_WEBHOOK e = Some url -> url <> [] ->
  (forall c, webhook_api e url c = Ok tt) ->
  disk_writable e = true ->
  exists title,
    main e s =
    (Ok Posted,
     {| state_file :=
          Some (Json (VDict (dict_set d last_posted_session_key sk)));
        trace := trace s ++
          [GetSessions; GetResults sk;
           PostWebhook url (content_of title lines);
           WriteState (Json (VDict (dict_set d last_posted_session_key sk)));
           Print (lit "Posted session " ++ fmt e sk ++ lit ".")] |}).
Proof.
  intros Hl Hr Hk Hsk Heq Hf Hlines Hurl Hne Hweb Hdisk.
  pose proof (resolve_dict _ Hr) as Hty.
  assert (Hs : truthy (VDict sd) = true) by (destruct sd; [discriminate|reflexivity]).
  destruct (format_when_total e sd) as [when Hwhen].
  unfold main, bind.
  rewrite load_state_eq, get_latest_practice_session_eq, Hr, Hs. cbn [negb].
  unfold lift at 1. cbn [get]. rewrite Hk, Hsk. cbn [negb].
  unfold lift at 1. cbn [state_file logged]. rewrite Hl. cbn [get].
  rewrite Heq, get_session_results_eq, Hf.
  unfold lift at 1. unfold or_else. cbn [rbind].
  lazymatch goal with
  | |- exists _, match ?x with Ok _ => _ | Raise _ => _ end = _ =>
      assert (Hgp : exists gp, x = Ok gp)
        by (destruct (truthy (dict_get sd (lit "meeting_name")));
            [|destruct (truthy (dict_get sd (lit "country_name")))]; eauto);
      destruct Hgp as [gp ->]
  end.
  unfold lift at 1.
  lazymatch goal with
  | |- exists _, match ?x with Ok _ => _ | Raise _ => _ end = _ =>
      assert (Hsn : exists sn, x = Ok sn)
        by (destruct (truthy (dict_get sd (lit "session_name"))); eauto);
      destruct Hsn as [sn ->]
  end.
  unfold lift at 1. rewrite Hwhen. unfold lift at 1. rewrite Hlines.
  unfold post_to_discord. rewrite Hurl. destruct url as [|c url]; [congruence|].
  unfold save_state, print, emit, lift, ret, setitem, logged, bind.
  cbn [state_file trace]. rewrite Hweb, Hdisk.
  exists (fmt e gp ++ lit " " ++ em_dash ++ lit " " ++ fmt e sn
          ++ lit " Results (" ++ fmt e when ++ lit ")").
  unfold content_of, json_dumps. cbn [state_file trace].
  rewrite <- !app_assoc. cbn [app]. reflexivity.
Qed.

(** The only runs that end [Posted]: state loaded as a dict, a session
    resolved with a true key other than the persisted one, one webhook
    call (or the notice that none is configured), then the write. *)
Lemma main_posted_inv e s s' :
  main e s = (Ok Posted, s') ->
  exists d sess sk ev,
    loaded (state_file s) = VDict d /\
    resolve e = Ok sess /\
    get sess (lit "session_key") = Ok sk /\
    truthy sk = true /\
    py_eq (dict_get d last_posted_session_key) sk = false /\
    ((exists url content, ev = PostWebhook url content) \/
     ev = Print (lit "No DISCORD_WEBHOOK provided.")) /\
    s' = {| state_file :=
              Some (Json (VDict (dict_set d last_posted_session_key sk)));
            trace := trace s ++
              [GetSessions; GetResults sk; ev;
               WriteState (Json (VDict (dict_set d last_posted_session_key sk)));
               Print (lit "Posted session " ++ fmt e sk ++ lit ".")] |}.
Proof.
  unfold main, bind. rewrite load_state_eq, get_latest_practice_session_eq.
  destruct (resolve e) as [sess|] eqn:Hr; [|discriminate].
  destruct (truthy sess); cbn [negb]; [|discriminate].
  unfold lift at 1.
  destruct (get sess (lit "session_key")) as [sk|] eqn:Hk; [|discriminate].
  destruct (truthy sk) eqn:Hsk; cbn [negb]; [|discriminate].
  unfold lift at 1.
  destruct (loaded (state_file s)) as [| | | | |d]; cbn [get]; try discriminate.
  destruct (py_eq (dict_get d last_posted_session_key) sk) eqn:Heq;
    [discriminate|].
  rewrite get_session_results_eq.
  destruct (fetch e sk) as [[|r rows]|]; try discriminate.
  unfold lift at 1.
  match goal with |- context [match ?x with Ok _ => _ | Raise _ => _ end] =>
    destruct x as [gp|]; [|discriminate] end.
  unfold lift at 1.
  match goal with |- context [match ?x with Ok _ => _ | Raise _ => _ end] =>
    destruct x as [sn|]; [|discriminate] end.
  unfold lift at 1.
  destruct (format_when e sess) as [when|]; [|discriminate].
  unfold lift at 1.
  destruct (lines_of e _) as [lines|]; [|discriminate].
  unfold post_to_discord.
  destruct (DISCORD_WEBHOOK e) as [[|c url]|].
  all: unfold save_state, print, emit, lift, ret, setitem, logged, bind;
    cbn [state_file trace].
  2: destruct (webhook_api e _ _); [|discriminate].
  all: destruct (disk_writable e); [|discriminate].
  all: intros H; apply (f_equal snd) in H; cbn [snd] in H; subst s';
    exists d, sess, sk.
  all: match goal with
       | |- context [PostWebhook ?u ?c] => exists (PostWebhook u c)
       | |- _ => exists (Print (lit "No DISCORD_WEBHOOK provided."))
       end.
  all: repeat match goal with |- _ /\ _ => split end; try reflexivity; eauto.
  all: unfold json_dumps; cbn [state_file trace]; rewrite <- !app_assoc;
    reflexivity.
Qed.

(* ================================================================== *)
(** ** The dedupe gate *)

(** The state file holds the key of the last session posted and no other,
    and it holds that one only once the write has succeeded.  So a session
    can be posted more than once: when the data source lists a second
    session and later the first one alone again, and when the write that
    follows the post fails. *)
Lemma session_posted_again :
  map fst (runs [race_weekend; later_that_day; race_weekend] None)
  = [Ok Posted; Ok Posted; Ok Posted] /\
  posts_for (VInt 9999) (runs [race_weekend; later_that_day; race_weekend] None)
  = 2%nat /\
  map fst (runs [disk_full; race_weekend] None) = [Raise OSError; Ok Posted] /\
  posts_for (VInt 9999) (runs [disk_full; race_weekend] None) = 2%nat.
Proof. vm_compute. repeat split; reflexivity. Qed.

(** C1. After a run that posted and saved, every later run that resolves
    a session whose key equals the persisted [last_posted_session_key]
    ends at the [AlreadyPosted] return: its trace is the sessions request
    and the log line only (no results request, no webhook call, no write)
    and the state file is left as it was.  Over the posting run and all
    those later runs together the webhook is called at most once. *)
Theorem second_run_already_posted e1 file s1 es :
  run e1 file = (Ok Posted, s1) ->
  Forall (resolves_persisted_key (state_file s1)) es ->
  Forall (eq (skipped (state_file s1))) (runs es (state_file s1)) /\
  (posts (trace s1) + total_posts (runs es (state_file s1)) <= 1)%nat.
Proof.
  intros Hrun Hes.
  destruct (main_posted_inv _ _ Hrun)
    as (d & sess1 & sk1 & ev & _ & _ & _ & Hsk1 & _ & Hev & Hs1).
  assert (Hpersisted : persisted_key (state_file s1) = Ok sk1).
  { rewrite Hs1. unfold persisted_key, loaded. cbn [state_file get].
    unfold dict_get. rewrite lookup_dict_set_eq. reflexivity. }
  assert (Hskip : forall e, resolves_persisted_key (state_file s1) e ->
                            run e (state_file s1) = skipped (state_file s1)).
  { intros e (sess & sk & posted & Hr & Hk & Hp & Heq).
    unfold run. erewrite main_already_posted; eauto.
    - eapply resolve_truthy; eauto.
    - rewrite Hpersisted in Hp. inversion Hp; subst posted.
      rewrite <- (py_eq_truthy _ _ Heq). assumption. }
  assert (Hall : Forall (eq (skipped (state_file s1))) (runs es (state_file s1))).
  { induction Hes as [|e es He _ IH]; simpl; [constructor|].
    rewrite (Hskip e He). constructor; [reflexivity|exact IH]. }
  split; [exact Hall|].
  assert (Hzero : total_posts (runs es (state_file s1)) = 0%nat).
  { induction Hall as [|r rs <- _ IH]; simpl; [reflexivity|exact IH]. }
  rewrite Hzero, Hs1. cbn [trace Nat.add].
  destruct Hev as [(url & content & ->)| ->]; simpl; lia.
Qed.

(** C10. A resolved session whose [session_key] is falsy ([None], the
    integer [0], the empty string, or any other falsy object) ends the
    run at the no-key return: the trace is the sessions request and the
    log line only (no results request, no webhook call, no write) and the
    state file is left as it was. *)
Theorem falsy_key_is_no_key e file sess sk :
  resolve e = Ok sess ->
  get sess (lit "session_key") = Ok sk ->
  sk = VNone \/ sk = VInt 0 \/ sk = VStr [] \/ truthy sk = false ->
  run e file =
  (Ok NoKey,
   {| state_file := file;
      trace := [GetSessions; Print (lit "Session has no key.")] |}).
Proof.
  intros Hr Hk Hsk.
  assert (Hfalsy : truthy sk = false)
    by (destruct Hsk as [->|[->|[->|H]]]; [reflexivity..|exact H]).
  unfold run. erewrite main_no_key; eauto.
  eapply resolve_truthy; eauto.
Qed.

(* ================================================================== *)
(** ** The resolver *)

Lemma practice_of_filter sessions :
  Forall is_dict sessions ->
  practice_of sessions = Ok (filter is_practice sessions).
Proof.
  induction 1 as [|x sessions [d ->] _ IH]; simpl; [reflexivity|].
  rewrite IH; simpl. unfold dict_get.
  destruct (lookup d (lit "session_type")) as [[| | |t| |]|]; reflexivity.
Qed.

(** C6. When no entry of the session list has [session_type] equal to the
    string ["Practice"] (compared exactly, so ["practice"] does not count),
    the resolver returns [None]. *)
Theorem no_practice_resolves_none e sessions s :
  sessions_api e = Ok (VList sessions) ->
  Forall is_dict sessions ->
  (forall d, In (VDict d) sessions ->
     lookup d (lit "session_type") <> Some (VStr (lit "Practice"))) ->
  get_latest_practice_session e s = (Ok VNone, logged s [GetSessions]).
Proof.
  intros Hapi Hdict Hnone.
  rewrite get_latest_practice_session_eq. f_equal.
  unfold resolve. rewrite Hapi. cbn [rbind iter].
  rewrite (practice_of_filter Hdict). cbn [rbind].
  replace (filter is_practice sessions) with (@nil value); [reflexivity|].
  symmetry. clear Hapi.
  induction Hdict as [|x sessions [d ->] _ IH]; [reflexivity|].
  cbn [filter].
  replace (is_practice (VDict d)) with false.
  - apply IH. intros d' Hd'. apply Hnone. right; exact Hd'.
  - symmetry. specialize (Hnone d (or_introl eq_refl)). unfold is_practice.
    destruct (lookup d (lit "session_type")) as [[| | |t| |]|]; try reflexivity.
    destruct (str_eqb t (lit "Practice")) eqn:E; [|reflexivity].
    apply str_eqb_eq in E. congruence.
Qed.





(* ================================================================== *)
(** ** The results *)

Lemma position_key_typed x :
  result_object x -> position_key x = Ok (VInt (order_position x)).
Proof.
  intros (d & -> & Hd).
  unfold position_key, order_position, or_else. cbn [get rbind]. unfold dict_get.
  destruct (lookup d (lit "position")) as [[| |z| | |]|];
    try contradiction; try reflexivity.
  cbn [truthy]. destruct (z =? 0); reflexivity.
Qed.

Lemma sorted_map_snd (k : value -> Z) (l : list (Z * value)) :
  Forall (fun p => fst p = k (snd p)) l ->
  StronglySorted (key_le Z.ltb) l ->
  StronglySorted (fun a b => k a <= k b) (map snd l).
Proof.
  intros Hk Hs. induction Hs as [|p l Hs IH Hp]; simpl; [constructor|].
  inversion Hk as [|? ? Hp0 Hl]; subst.
  constructor; [auto|].
  rewrite Forall_map. rewrite Forall_forall in *.
  intros q Hq. specialize (Hp q Hq). unfold key_le in Hp.
  rewrite (Hl q Hq), Hp0 in Hp. apply Z.ltb_ge in Hp. exact Hp.
Qed.

Lemma filter_map_snd (k : value -> Z) (z : Z) (l : list (Z * value)) :
  Forall (fun p => fst p = k (snd p)) l ->
  filter (fun x => k x =? z) (map snd l)
  = map snd (filter (fun p => fst p =? z) l).
Proof.
  induction 1 as [|p l Hp _ IH]; [reflexivity|].
  cbn [map filter]. rewrite <- Hp, IH.
  destruct (fst p =? z); reflexivity.
Qed.

(** The rows [get_session_results] returns, for a payload of result
    objects: the same rows, in ascending [order_position], rows ordered
    alike in their input order. *)
Lemma fetch_sorted e sk rows :
  results_api e sk = Ok (VList rows) ->
  Forall result_object rows ->
  exists out,
    fetch e sk = Ok out /\
    Permutation rows out /\
    StronglySorted (fun a b => order_position a <= order_position b) out /\
    forall z,
      filter (fun x => order_position x =? z) out
      = filter (fun x => order_position x =? z) rows.
Proof.
  intros Hapi Hrows.
  assert (Hkeys : Forall (fun x => position_key x = Ok (VInt (order_position x))) rows).
  { eapply Forall_impl; [|exact Hrows]. apply position_key_typed. }
  set (keyed_rows := map (fun x => (order_position x, x)) rows).
  assert (Hrows' : map snd keyed_rows = rows)
    by (unfold keyed_rows; rewrite map_map; apply map_id).
  assert (Hfst : Forall (fun p => fst p = order_position (snd p)) keyed_rows)
    by (unfold keyed_rows; rewrite Forall_map; apply Forall_forall; reflexivity).
  assert (Hfst' : Forall (fun p => fst p = order_position (snd p))
                         (isort_by Z.ltb keyed_rows))
    by (eapply Permutation_Forall; [apply isort_by_perm|exact Hfst]).
  exists (map snd (isort_by Z.ltb keyed_rows)).
  split; [|split; [|split]].
  - unfold fetch. rewrite Hapi. cbn [rbind iter].
    apply (@sort_by_typed Z VInt Z.ltb (fun a b => eq_refl)
             position_key order_position _ Hkeys).
  - rewrite <- Hrows' at 1. apply Permutation_map, isort_by_perm.
  - apply sorted_map_snd; [exact Hfst'|].
    apply isort_by_sorted.
    + apply Z.ltb_irrefl.
    + intros a b c Hab Hbc. apply Z.ltb_lt in Hab, Hbc. apply Z.ltb_lt. lia.
    + intros a b Hab Hba. apply Z.ltb_ge in Hab, Hba. lia.
  - intros z.
    rewrite (filter_map_snd order_position z Hfst').
    rewrite (isort_by_stable Z.ltb (fun a => a =? z)).
    + rewrite <- (filter_map_snd order_position z Hfst), Hrows'. reflexivity.
    + intros a b Hab Ha Hb.
      apply Z.ltb_lt in Hab. apply Z.eqb_eq in Ha, Hb. lia.
Qed.

(** C4, as the code has it.  For a payload of result objects,
    [get_session_results] returns the same rows, each with its fields as
    received, in ascending order of position, where a row whose position
    is absent, [null] or 0 is ordered as if its position were 9999; rows
    ordered alike stay in their input order. *)
Theorem results_sorted_by_position e sk rows s :
  results_api e sk = Ok (VList rows) ->
  Forall result_object rows ->
  exists out,
    get_session_results e sk s = (Ok out, logged s [GetResults sk]) /\
    Permutation rows out /\
    StronglySorted (fun a b => order_position a <= order_position b) out /\
    forall z,
      filter (fun x => order_position x =? z) out
      = filter (fun x => order_position x =? z) rows.
Proof.
  intros Hapi Hrows.
  destruct (fetch_sorted e sk Hapi Hrows) as (out & Hf & Hperm & Hsorted & Hst).
  exists out. rewrite get_session_results_eq, Hf. auto.
Qed.

(** The rows with positions 2, 1 and [None] come out as 1, 2, [None]. *)
Example results_example :
  fetch (answering (VList []) (VList [placed (VInt 2); placed (VInt 1); placed VNone]))
        (VInt 9999)
  = Ok [placed (VInt 1); placed (VInt 2); placed VNone].
Proof. reflexivity. Qed.

Lemma results_sorted_by_position_witness :
  exists out,
    get_session_results
      (answering (VList []) (VList [placed (VInt 2); placed (VInt 1); placed VNone]))
      (VInt 9999) {| state_file := None; trace := [] |}
    = (Ok out, {| state_file := None; trace := [GetResults (VInt 9999)] |}) /\
    Permutation [placed (VInt 2); placed (VInt 1); placed VNone] out /\
    StronglySorted (fun a b => order_position a <= order_position b) out /\
    forall z,
      filter (fun x => order_position x =? z) out
      = filter (fun x => order_position x =? z)
               [placed (VInt 2); placed (VInt 1); placed VNone].
Proof.
  apply (@results_sorted_by_position
           (answering (VList []) (VList [placed (VInt 2); placed (VInt 1); placed VNone]))
           (VInt 9999) [placed (VInt 2); placed (VInt 1); placed VNone]
           {| state_file := None; trace := [] |}).
  - reflexivity.
  - repeat constructor; eexists; (split; [reflexivity|exact I]).
Defined.

(** C4, as stated, fails: a row with position 0 is ordered as if it were
    at 9999, so positions 1 and 0 come out as 1, 0, which is not ascending
    by position. *)
Lemma zero_position_is_ordered_last :
  fetch (answering (VList []) (VList [placed (VInt 1); placed (VInt 0)]))
        (VInt 9999)
  = Ok [placed (VInt 1); placed (VInt 0)] /\
  ascending stated_position [placed (VInt 1); placed (VInt 0)] = false.
Proof. split; reflexivity. Qed.

(* ================================================================== *)
(** ** The state store *)

(** C7, as the code has it.  [load_state] never raises and never touches
    the store.  For a missing file, and for content that cannot be read
    or decoded as JSON, it returns the default state, whose
    [last_posted_session_key] is [null]; content that decodes is returned
    as decoded, whatever its shape. *)
Theorem load_state_never_fails s :
  exists v,
    load_state s = (Ok v, s) /\
    (state_file s = None \/ state_file s = Some Garbage ->
     v = default_state /\ no_posted_key v) /\
    (forall v', state_file s = Some (Json v') -> v = v').
Proof.
  exists (loaded (state_file s)). split; [apply load_state_eq|]. split.
  - intros [-> | ->]; (split; [reflexivity|]);
      exists [(last_posted_session_key, VNone)];
      (split; [reflexivity|right; reflexivity]).
  - intros v' ->. reflexivity.
Qed.

Lemma load_state_never_fails_witness :
  load_state {| state_file := Some Garbage; trace := [] |}
  = (Ok default_state, {| state_file := Some Garbage; trace := [] |}) /\
  no_posted_key default_state.
Proof.
  destruct (load_state_never_fails {| state_file := Some Garbage; trace := [] |})
    as (v & Hload & Hdefault & _).
  destruct (Hdefault (or_intror eq_refl)) as [-> Hkey].
  split; [exact Hload | exact Hkey].
Defined.

(** C7, as stated, fails: content that decodes to an object whose
    [last_posted_session_key] is a list is not a well-formed persisted
    state, and [load_state] returns it as it is, with that key neither
    missing nor [null]. *)
Lemma load_state_keeps_ill_formed_content :
  let content := VDict [(last_posted_session_key, VList [VInt 1])] in
  let s := {| state_file := Some (Json content); trace := [] |} in
  ~ well_formed_state content /\
  load_state s = (Ok content, s) /\
  ~ no_posted_key content.
Proof.
  cbv zeta. split; [|split].
  - intros (d & Hd & Hk). inversion Hd; subst d. exact Hk.
  - reflexivity.
  - intros (d & Hd & [Hk|Hk]); inversion Hd; subst d; discriminate Hk.
Qed.

(* ================================================================== *)
(** ** The message *)

Lemma str_replace_app c new (a b : str) :
  str_replace c new (a ++ b) = str_replace c new a ++ str_replace c new b.
Proof. unfold str_replace. apply flat_map_app. Qed.

Lemma str_replace_none c new (s : str) :
  ~ In c s -> str_replace c new s = s.
Proof.
  induction s as [|x s IH]; intros Hc; [reflexivity|].
  change (str_replace c new (x :: s))
    with ((if N.eqb x c then new else [x]) ++ str_replace c new s).
  destruct (N.eqb_spec x c) as [->|_].
  - exfalso. apply Hc. left; reflexivity.
  - rewrite IH; [reflexivity|]. intros H. apply Hc. right; exact H.
Qed.

(** For a timestamp whose only "Z" is its last character, that is the
    replacement of the trailing "Z". *)
Lemma with_utc_offset_trailing (body : str) :
  ~ In 90%N body ->
  with_utc_offset (body ++ [90%N]) = body ++ lit "+00:00" /\
  with_utc_offset body = body.
Proof.
  unfold with_utc_offset. intros Hz. split.
  - rewrite str_replace_app, str_replace_none by exact Hz. reflexivity.
  - apply str_replace_none. exact Hz.
Qed.

(** The replacement is of every "Z", not of a trailing one: a timestamp
    with a "Z" inside that does not parse once its trailing "Z" is
    replaced (it has none) is not returned as it is, it is formatted. *)
Lemma inner_Z_is_replaced :
  local_strftime (listing 10 offset_clock race_weekend)
                 (LOCAL_TZ (listing 10 offset_clock race_weekend))
                 (with_trailing_utc_offset offset_stamp)
  = Raise ValueError /\
  format_when (listing 10 offset_clock race_weekend) (VDict offset_session)
  = Ok (VStr (lit "Sat 18 May 2024 12:29 CEST")) /\
  format_when (listing 10 offset_clock race_weekend) (VDict offset_session)
  <> Ok (VStr offset_stamp).
Proof.
  split; [reflexivity|]. split; [reflexivity|].
  vm_compute. discriminate.
Qed.

(** C5.  [format_when] returns for every session object, whatever its
    fields hold.  When [date_end] and [date_start] are both absent it
    returns the empty string.  When the timestamp it chose
    ([date_end or date_start]) is a string and parsing it, after the
    replacement of every "Z" by a UTC offset, raises, it returns that
    string unchanged. *)
Theorem format_when_never_raises e d :
  (exists v, format_when e (VDict d) = Ok v) /\
  (absent d (lit "date_end") -> absent d (lit "date_start") ->
   format_when e (VDict d) = Ok (VStr [])) /\
  (forall iso x,
     py_or (dict_get d (lit "date_end")) (dict_get d (lit "date_start")) = VStr iso ->
     local_strftime e (LOCAL_TZ e) (with_utc_offset iso) = Raise x ->
     format_when e (VDict d) = Ok (VStr iso)).
Proof.
  split; [apply format_when_total|]. split.
  - unfold absent, format_when, or_else. cbn [get rbind]. unfold dict_get.
    intros [-> | ->] [-> | ->]; reflexivity.
  - intros iso x Hiso Hparse.
    unfold format_when, or_else. cbn [get rbind].
    unfold py_or in Hiso.
    destruct (truthy (dict_get d (lit "date_end"))); cbn [rbind]; rewrite Hiso.
    all: destruct iso as [|c iso]; [reflexivity|].
    all: cbn [truthy negb format_when_try].
    all: unfold with_utc_offset in Hparse; rewrite Hparse; reflexivity.
Qed.

Lemma format_when_never_raises_witness :
  format_when (answering (VList []) (VList [])) (VDict undated_session)
  = Ok (VStr (lit "soon")).
Proof.
  destruct (format_when_never_raises (answering (VList []) (VList []))
              undated_session) as (_ & _ & Hraw).
  apply (Hraw (lit "soon") ValueError); reflexivity.
Defined.

Lemma or_empty_text d k :
  text_or_absent d k ->
  py_or (dict_get d k) (VStr []) = VStr (text_field d k).
Proof.
  unfold text_or_absent, py_or, dict_get, text_field.
  destruct (lookup d k) as [[| | |[|c s]| |]|]; intros H;
    try contradiction; reflexivity.
Qed.

Lemma fmt_position e d :
  result_object (VDict d) ->
  fmt e (dict_get d (lit "position")) = position_text d.
Proof.
  intros (d' & Hd & H). inversion Hd; subst d'.
  unfold dict_get, position_text.
  destruct (lookup d (lit "position")) as [[| |z| | |]|];
    try contradiction; reflexivity.
Qed.

Lemma line_of_typed e x : result_row x -> line_of e x = Ok (stated_line x).
Proof.
  intros (d & -> & Hpos & Hfirst & Hlast & Hteam & Hbest & Htime).
  unfold line_of, stated_line. cbn [get rbind].
  rewrite (or_empty_text _ _ Hfirst). cbn [slice1 rbind].
  rewrite (or_empty_text _ _ Hlast), (or_empty_text _ _ Hteam).
  rewrite (fmt_position e Hpos). cbn [fmt].
  assert (Hlap :
    or_else (dict_get d (lit "best_lap_time"))
            (or_else (dict_get d (lit "time")) (Ok (VStr [])))
    = Ok (VStr match text_field d (lit "best_lap_time") with
               | [] => text_field d (lit "time")
               | t => t
               end)).
  { unfold text_or_absent, or_else, dict_get, text_field in *.
    destruct (lookup d (lit "best_lap_time")) as [[| | |[|c s]| |]|];
      try contradiction; cbn [truthy]; try reflexivity;
      destruct (lookup d (lit "time")) as [[| | |[|c' s']| |]|];
      try contradiction; reflexivity. }
  rewrite Hlap. cbn [rbind fmt]. reflexivity.
Qed.

Lemma lines_of_typed e rows :
  Forall result_row rows -> lines_of e rows = Ok (map stated_line rows).
Proof.
  induction 1 as [|x rows Hx _ IH]; [reflexivity|].
  cbn [lines_of map]. rewrite (line_of_typed e Hx), IH. reflexivity.
Qed.

(** C8.  For result rows with typed fields and a non-negative [TOP_N],
    the lines built by [main] are, for each of the first [TOP_N] rows in
    the order received, the line
    ["<position>. <first-initial>. <last name> — <team name>  <lap-or-time>"]:
    the first initial is the first character of [driver_first_name] (empty
    when absent), the name segment is stripped of periods and spaces at
    both ends, absent team and lap fields are empty, and the position is
    printed as it is, as [None] when absent. *)
Theorem lines_render_first_rows e rows :
  0 <= TOP_N e ->
  Forall result_row rows ->
  lines_of e (slice_to rows (TOP_N e))
  = Ok (map stated_line (firstn (Z.to_nat (TOP_N e)) rows)).
Proof.
  intros Hn Hrows. unfold slice_to.
  destruct (Z.ltb_spec (TOP_N e) 0) as [Hneg|_]; [lia|].
  apply lines_of_typed.
  rewrite <- (firstn_skipn (Z.to_nat (TOP_N e)) rows) in Hrows.
  apply Forall_app in Hrows. apply Hrows.
Qed.

(** The three rows as they are rendered: initial and surname, and for the
    row without position, first name, team and time the marker [None], a
    bare surname and empty fields. *)
Example three_lines :
  map stated_line three_rows =
  [lit "2. M. Verstappen " ++ em_dash ++ lit " Red Bull Racing  1:10.9";
   lit "1. L. Norris " ++ em_dash ++ lit " McLaren  1:10.7";
   lit "None. Sainz " ++ em_dash ++ lit "   "].
Proof. reflexivity. Qed.

Lemma lines_render_first_rows_witness :
  lines_of (answering (VList [practice_1]) (VList three_rows))
           (slice_to three_rows 10)
  = Ok (map stated_line (firstn 10 three_rows)).
Proof.
  apply (@lines_render_first_rows
           (answering (VList [practice_1]) (VList three_rows)) three_rows).
  - cbn. discriminate.
  - repeat constructor; eexists; (split; [reflexivity|]);
      (split; [eexists; split; [reflexivity|exact I]|]);
      repeat split; exact I.
Defined.

(* ================================================================== *)
(** ** The pipeline *)

(** C9.  A run that posts changes only [last_posted_session_key]: the
    state it writes is the loaded state with that key set to the session
    key, and every other key of the loaded state is there with its value
    unchanged. *)
Theorem posted_run_keeps_other_keys e file s' :
  run e file = (Ok Posted, s') ->
  exists d d' sk,
    fst (load_state {| state_file := file; trace := [] |}) = Ok (VDict d) /\
    state_file s' = Some (json_dumps (VDict d')) /\
    In (WriteState (json_dumps (VDict d'))) (trace s') /\
    lookup d' last_posted_session_key = Some sk /\
    (forall k, k <> last_posted_session_key -> lookup d' k = lookup d k).
Proof.
  intros Hrun.
  destruct (main_posted_inv _ _ Hrun)
    as (d & sess & sk & ev & Hload & _ & _ & _ & _ & _ & ->).
  exists d, (dict_set d last_posted_session_key sk), sk.
  rewrite load_state_eq. cbn [fst state_file trace].
  cbn [state_file] in Hload. rewrite Hload.
  split; [reflexivity|]. split; [reflexivity|]. split.
  - cbn [app In]. auto.
  - split; [apply lookup_dict_set_eq|].
    intros k Hk. apply lookup_dict_set_ne. exact Hk.
Qed.

Lemma posted_run_keeps_other_keys_witness :
  exists d d' sk,
    fst (load_state {| state_file := Some (Json annotated_state); trace := [] |})
    = Ok (VDict d) /\
    state_file (snd (run (answering (VList [practice_1]) (VList three_rows))
                         (Some (Json annotated_state))))
    = Some (json_dumps (VDict d')) /\
    In (WriteState (json_dumps (VDict d')))
       (trace (snd (run (answering (VList [practice_1]) (VList three_rows))
                        (Some (Json annotated_state))))) /\
    lookup d' last_posted_session_key = Some sk /\
    (forall k, k <> last_posted_session_key -> lookup d' k = lookup d k).
Proof.
  apply (@posted_run_keeps_other_keys
           (answering (VList [practice_1]) (VList three_rows))
           (Some (Json annotated_state))).
  vm_compute. reflexivity.
Defined.

(** C3.  When the resolver returns no session the run ends at the
    no-session return, and when the results request for the key that
    passed the gate returns an empty array it ends at the no-results
    return; either way the trace holds no webhook call and no write, and
    the state file is left as it was.  After the no-results run a later
    run that resolves the same session and gets rows for it posts. *)
Theorem early_exit_changes_nothing e file sess :
  resolve e = Ok sess ->
  (truthy sess = false ->
   run e file =
   (Ok NoSession,
    {| state_file := file;
       trace := [GetSessions; Print (lit "No practice session found.")] |}))
  /\
  (forall sk posted,
     get sess (lit "session_key") = Ok sk -> truthy sk = true ->
     persisted_key file = Ok posted -> py_eq posted sk = false ->
     results_api e sk = Ok (VList []) ->
     run e file =
     (Ok NoResults,
      {| state_file := file;
         trace := [GetSessions; GetResults sk;
                   Print (lit "No results yet; try again next run.")] |})
     /\
     forall e' url lines,
       resolve e' = Ok sess -> ready_to_post e' sk url lines ->
       exists title s'',
         run e' (state_file (snd (run e file))) = (Ok Posted, s'') /\
         In (PostWebhook url (content_of title lines)) (trace s'')).
Proof.
  intros Hr. split.
  - intros Hs. unfold run.
    rewrite (@main_no_session e {| state_file := file; trace := [] |} sess Hr Hs).
    reflexivity.
  - intros sk posted Hk Hsk Hp Heq Hapi.
    assert (Hrun : run e file =
      (Ok NoResults,
       {| state_file := file;
          trace := [GetSessions; GetResults sk;
                    Print (lit "No results yet; try again next run.")] |})).
    { assert (Hs : truthy sess = true) by (eapply resolve_truthy; eauto).
      assert (Hnone : fetch e sk = Ok [])
        by (unfold fetch; rewrite Hapi; reflexivity).
      unfold run.
      rewrite (@main_no_results e {| state_file := file; trace := [] |}
                 sess sk posted Hr Hs Hk Hsk Hp Heq Hnone).
      reflexivity. }
    split; [exact Hrun|].
    intros e' url lines Hr' (r & rows & Hf & Hl & Hurl & Hne & Hweb & Hdisk).
    rewrite Hrun. cbn [snd state_file].
    destruct sess as [| | | | |sd]; cbn [get] in Hk; try discriminate.
    injection Hk as Hk'. unfold persisted_key in Hp.
    destruct (loaded file) as [| | | | |d] eqn:Hd; cbn [get] in Hp; try discriminate.
    injection Hp as Hp. rewrite <- Hp in Heq.
    destruct (@main_posts e' {| state_file := file; trace := [] |}
                d sd sk r rows lines url Hd Hr' Hk' Hsk Heq Hf Hl Hurl Hne
                Hweb Hdisk) as [title Hposted].
    exists title. eexists. split; [exact Hposted|].
    cbn [trace app In]. auto.
Qed.

(* ================================================================== *)
(** ** The theorems at work on the scenario *)

Example first_run_posts :
  fst (run race_weekend None) = Ok Posted /\
  state_file (snd (run race_weekend None))
  = Some (Json (VDict [(last_posted_session_key, VInt 9999)])) /\
  posts (trace (snd (run race_weekend None))) = 1%nat.
Proof. repeat split; vm_compute; reflexivity. Qed.

(** What the webhook receives in that run: the title, with the timestamp
    as received because the zone data is unavailable, and the three lines
    in ranked order. *)
Example first_run_content :
  In (PostWebhook (lit "https://discord.test/hook")
        (lit "**Dutch Grand Prix " ++ em_dash
         ++ lit " Practice 1 Results (2024-08-23T11:30:00+00:00)**"
         ++ [10%N] ++ lit "1. L. Norris " ++ em_dash ++ lit " McLaren  1:10.7"
         ++ [10%N] ++ lit "2. M. Verstappen " ++ em_dash
         ++ lit " Red Bull Racing  1:10.9"
         ++ [10%N] ++ lit "None. Sainz " ++ em_dash ++ lit "   "))
     (trace (snd (run race_weekend None))).
Proof. vm_compute. auto. Qed.

(** A state file that decodes to something other than an object is
    returned by [load_state] as it is, and the run then raises at the
    gate, where [state.get] is called. *)
Example non_object_state_raises_at_the_gate :
  run race_weekend (Some (Json (VList []))) =
  (Raise AttributeError,
   {| state_file := Some (Json (VList [])); trace := [GetSessions] |}).
Proof. reflexivity. Qed.

Lemma second_run_already_posted_witness :
  Forall (eq (skipped (state_file (snd (run race_weekend None)))))
         (runs [race_weekend; before_results]
               (state_file (snd (run race_weekend None)))) /\
  (posts (trace (snd (run race_weekend None)))
   + total_posts (runs [race_weekend; before_results]
                       (state_file (snd (run race_weekend None)))) <= 1)%nat.
Proof.
  apply (@second_run_already_posted race_weekend None
           (snd (run race_weekend None)) [race_weekend; before_results]).
  - vm_compute. reflexivity.
  - repeat constructor;
      exists practice_1, (VInt 9999), (VInt 9999);
      repeat split; vm_compute; reflexivity.
Defined.

Lemma falsy_key_is_no_key_witness :
  run keyless_weekend None =
  (Ok NoKey,
   {| state_file := None;
      trace := [GetSessions; Print (lit "Session has no key.")] |}).
Proof.
  apply (@falsy_key_is_no_key keyless_weekend None
           (VDict [(lit "session_key", VInt 0);
                   (lit "session_type", VStr (lit "Practice"))])
           (VInt 0)).
  - reflexivity.
  - reflexivity.
  - right. left. reflexivity.
Defined.

Lemma no_practice_resolves_none_witness :
  get_latest_practice_session
    (answering (VList no_practice_sessions) (VList three_rows))
    {| state_file := None; trace := [] |}
  = (Ok VNone, {| state_file := None; trace := [GetSessions] |}).
Proof.
  apply (@no_practice_resolves_none
           (answering (VList no_practice_sessions) (VList three_rows))
           no_practice_sessions {| state_file := None; trace := [] |}).
  - reflexivity.
  - repeat constructor; eexists; reflexivity.
  - intros d [H|[H|[H|[]]]]; inversion H; subst d; discriminate.
Defined.

(** Of the two practice sessions that end last, the later entry wins. *)
Example latest_of_busy_weekend :
  resolve (answering (VList busy_weekend) (VList []))
  = Ok (session 3 "Practice" "2024-08-24T10:30:00+00:00").
Proof. reflexivity. Qed.


Lemma early_exit_changes_nothing_witness :
  run before_results None =
  (Ok NoResults,
   {| state_file := None;
      trace := [GetSessions; GetResults (VInt 9999);
                Print (lit "No results yet; try again next run.")] |}) /\
  exists title s'',
    run race_weekend (state_file (snd (run before_results None)))
    = (Ok Posted, s'') /\
    In (PostWebhook (lit "https://discord.test/hook")
          (content_of title (map stated_line ranked_rows)))
       (trace s'').
Proof.
  destruct (@early_exit_changes_nothing before_results None practice_1 eq_refl)
    as [_ Hresults].
  destruct (Hresults (VInt 9999) VNone eq_refl eq_refl eq_refl eq_refl eq_refl)
    as [Hrun Hlater].
  split; [exact Hrun|].
  apply Hlater; [reflexivity|].
  exists (driver (VInt 1) "Lando" "Norris" "McLaren" "1:10.7"),
    [driver (VInt 2) "Max" "Verstappen" "Red Bull Racing" "1:10.9";
     VDict [(lit "position", VNone); (lit "driver_last_name", VStr (lit "Sainz"))]].
  split; [reflexivity|]. split; [reflexivity|]. split; [reflexivity|].
  split; [discriminate|]. split; [intros c; reflexivity|reflexivity].
Defined.

(* ================================================================== *)
(** ** Every path of a run *)

(** What the resolver returns is [None] or an object. *)
Lemma resolve_none_or_dict e sess :
  resolve e = Ok sess -> sess = VNone \/ exists d, sess = VDict d.
Proof.
  unfold resolve. intros H.
  destruct (sessions_api e) as [r|]; simpl in H; [|discriminate].
  destruct (iter r) as [sessions|]; simpl in H; [|discriminate].
  destruct (practice_of sessions) as [practice|] eqn:Hp; simpl in H; [|discriminate].
  destruct practice as [|p practice]; [inversion H; auto|].
  destruct (sort_by sort_key (p :: practice)) as [sorted|] eqn:Hs;
    simpl in H; [|discriminate].
  inversion H as [Hl]; clear H. right.
  pose proof (sort_by_perm _ _ Hs) as Hperm.
  assert (Hin : In (last sorted VNone) (p :: practice)).
  { eapply Permutation_in; [apply Permutation_sym, Hperm|].
    apply last_In. intros ->.
    apply Permutation_sym, Permutation_nil in Hperm. discriminate. }
  destruct (practice_of_spec _ Hp _ Hin) as (_ & d & Hd & _).
  exists d. exact Hd.
Qed.

(** Past the gate, [main] is the results request followed by the
    rendering and the delivery. *)
Lemma main_after_gate e s sess sk d :
  passes_gate e (state_file s) sess sk d ->
  main e s =
  (results <- lift (fetch e sk) ;;
   match results with
   | [] => print (lit "No results yet; try again next run.") ;; ret NoResults
   | _ :: _ =>
       title <- lift (title_of e sess) ;;
       lines <- lift (lines_of e (slice_to results (TOP_N e))) ;;
       deliver e (VDict d) sk title lines
   end) (logged s [GetSessions; GetResults sk]).
Proof.
  intros (Hd & Hr & Hk & Hsk & Heq).
  assert (Hs : truthy sess = true) by (eapply resolve_truthy; eauto).
  unfold main, bind.
  rewrite load_state_eq, get_latest_practice_session_eq, Hr, Hs. cbn [negb].
  unfold lift at 1. rewrite Hk, Hsk. cbn [negb].
  unfold lift at 1. cbn [state_file logged]. rewrite Hd. cbn [get].
  rewrite Heq, get_session_results_eq, logged_logged. cbn [app].
  destruct (fetch e sk) as [[|r rows]|]; try reflexivity.
  unfold title_of, deliver, bind, lift. cbv beta iota.
  set (gp := rbind (get sess (lit "meeting_name")) _).
  set (sname := rbind (get sess (lit "session_name")) _).
  destruct gp, sname, (format_when e sess),
    (lines_of e (slice_to (r :: rows) (TOP_N e))); reflexivity.
Qed.

Lemma deliver_post_failed e d sk title lines url x s :
  DISCORD_WEBHOOK e = Some url -> url <> [] ->
  webhook_api e url (content_of title lines) = Raise x ->
  deliver e (VDict d) sk title lines s =
  (Raise x, logged s [PostWebhook url (content_of title lines)]).
Proof.
  intros Hurl Hne Hweb. unfold deliver, post_to_discord, bind.
  rewrite Hurl. destruct url as [|c url]; [congruence|].
  unfold emit, lift, bind. fold (content_of title lines). rewrite Hweb.
  reflexivity.
Qed.

Lemma deliver_notified e d sk title lines ev s :
  notified e title lines ev ->
  deliver e (VDict d) sk title lines s =
  if disk_writable e then
    (Ok Posted,
     {| state_file :=
          Some (json_dumps (VDict (dict_set d last_posted_session_key sk)));
        trace := trace s ++
          [ev;
           WriteState
             (json_dumps (VDict (dict_set d last_posted_session_key sk)));
           Print (lit "Posted session " ++ fmt e sk ++ lit ".")] |})
  else
    (Raise (raised_by (write_error e)),
     {| state_file := left_by (write_error e) (state_file s);
        trace := trace s ++
          [ev;
           WriteState
             (json_dumps (VDict (dict_set d last_posted_session_key sk)))] |}).
Proof.
  intros [(url & Hurl & Hne & -> & Hweb) | [Hnone ->]];
    unfold deliver, post_to_discord, bind.
  - rewrite Hurl. destruct url as [|c url]; [congruence|].
    unfold save_state, print, emit, lift, ret, setitem, logged, bind.
    fold (content_of title lines). rewrite Hweb.
    cbn [state_file trace]. destruct (disk_writable e);
      cbn [state_file trace]; rewrite <- !app_assoc; reflexivity.
  - assert (Hprint : match DISCORD_WEBHOOK e with
                     | None | Some [] => true
                     | Some (_ :: _) => false
                     end = true)
      by (destruct Hnone as [-> | ->]; reflexivity).
    destruct (DISCORD_WEBHOOK e) as [[|c url]|]; try discriminate.
    all: unfold save_state, print, emit, lift, ret, setitem, logged, bind;
      cbn [state_file trace]; destruct (disk_writable e);
      cbn [state_file trace]; rewrite <- !app_assoc; reflexivity.
Qed.

(** What [post_to_discord] can do: fail at the webhook, or return having
    called it or having printed the notice. *)
Lemma webhook_cases e title lines :
  (exists url x,
     DISCORD_WEBHOOK e = Some url /\ url <> [] /\
     webhook_api e url (content_of title lines) = Raise x) \/
  exists ev, notified e title lines ev.
Proof.
  destruct (DISCORD_WEBHOOK e) as [[|c url]|] eqn:Hurl.
  - right. eexists. right. split; [right; exact Hurl|reflexivity].
  - destruct (webhook_api e (c :: url) (content_of title lines)) as [[]|x] eqn:Hweb.
    + right. eexists. left. exists (c :: url).
      split; [exact Hurl|]. split; [discriminate|].
      split; [reflexivity|exact Hweb].
    + left. exists (c :: url), x.
      split; [reflexivity|]. split; [discriminate|exact Hweb].
  - right. eexists. right. split; [left; exact Hurl|reflexivity].
Qed.

(** Every run follows one of the paths. *)
Lemma run_path_total e file : run_path e file (run e file).
Proof.
  unfold run.
  destruct (resolve e) as [sess|x] eqn:Hr.
  2:{ unfold main, bind.
      rewrite load_state_eq, get_latest_practice_session_eq, Hr.
      apply sessions_failed; assumption. }
  destruct (truthy sess) eqn:Hs.
  2:{ rewrite (@main_no_session e {| state_file := file; trace := [] |} sess Hr Hs).
      eapply found_no_session; eassumption. }
  destruct (resolve_none_or_dict _ Hr) as [-> | [sd ->]]; [discriminate|].
  assert (Hk : get (VDict sd) (lit "session_key")
               = Ok (dict_get sd (lit "session_key"))) by reflexivity.
  set (sk := dict_get sd (lit "session_key")) in *.
  destruct (truthy sk) eqn:Hsk.
  2:{ rewrite (@main_no_key e {| state_file := file; trace := [] |} _ sk Hr Hs Hk Hsk).
      eapply found_no_key; eassumption. }
  destruct (persisted_key file) as [posted|x] eqn:Hp.
  2:{ unfold main, bind.
      rewrite load_state_eq, get_latest_practice_session_eq, Hr, Hs. cbn [negb].
      unfold lift at 1. rewrite Hk, Hsk. cbn [negb].
      unfold lift at 1. cbn [state_file logged].
      unfold persisted_key in Hp. rewrite Hp.
      eapply state_unusable; eassumption. }
  destruct (py_eq posted sk) eqn:Heq.
  { rewrite (@main_already_posted e {| state_file := file; trace := [] |}
               _ sk posted Hr Hs Hk Hsk Hp Heq).
    eapply skipped_as_posted; eassumption. }
  assert (Hgate : exists d, passes_gate e file (VDict sd) sk d).
  { unfold persisted_key in Hp.
    destruct (loaded file) as [| | | | |d] eqn:Hd; cbn [get] in Hp; try discriminate.
    exists d. injection Hp as <-. repeat split; assumption. }
  destruct Hgate as [d Hgate].
  rewrite (@main_after_gate e {| state_file := file; trace := [] |} _ sk d Hgate).
  unfold bind at 1. unfold lift at 1.
  destruct (fetch e sk) as [[|r rows]|x] eqn:Hf.
  - eapply found_no_results; eassumption.
  - unfold bind at 1. unfold lift at 1.
    destruct (title_of e (VDict sd)) as [title|x] eqn:Ht.
    2:{ eapply rendering_failed; eauto. }
    unfold bind at 1. unfold lift at 1.
    destruct (lines_of e (slice_to (r :: rows) (TOP_N e))) as [lines|x] eqn:Hl.
    2:{ eapply rendering_failed; eauto. }
    assert (Hrendered : rendered e (VDict sd) sk title lines)
      by (exists r, rows; auto).
    destruct (webhook_cases e title lines)
      as [(url & x & Hurl & Hne & Hweb) | [ev Hev]].
    + rewrite (@deliver_post_failed e d sk title lines url x _ Hurl Hne Hweb).
      eapply post_failed; eassumption.
    + rewrite (@deliver_notified e d sk title lines ev _ Hev).
      destruct (disk_writable e) eqn:Hdisk.
      * eapply posted_and_saved; eassumption.
      * eapply write_failed; eassumption.
  - eapply results_failed; eassumption.
Qed.

Ltac run_paths e file :=
  let H := fresh "Hpath" in
  pose proof (run_path_total e file) as H;
  inversion H; subst; clear H;
  repeat match goal with
         | Hn : notified _ _ _ _ |- _ =>
             destruct Hn as [(? & ? & ? & -> & ?) | [? ->]]
         | Hrun : _ = run e file |- _ => rewrite <- Hrun in *; clear Hrun
         end;
  unfold skipped in *;
  cbn [fst snd trace state_file] in *.

(** X1.  Every run, however it ends, asks for the sessions exactly once,
    as its first action, and makes at most one results request, at most
    one webhook call and at most one write of the state file. *)
Theorem run_acts_at_most_once e file :
  (exists rest, trace (snd (run e file)) = GetSessions :: rest) /\
  sessions_requests (trace (snd (run e file))) = 1%nat /\
  (results_requests (trace (snd (run e file))) <= 1)%nat /\
  (posts (trace (snd (run e file))) <= 1)%nat /\
  (writes (trace (snd (run e file))) <= 1)%nat.
Proof.
  run_paths e file; (split; [eexists; reflexivity|]); cbn; lia.
Qed.

(** X2.  The state file changes in [save_state] only.  A run without a
    write attempt, whether it returns early or raises, at the webhook
    call included, leaves the file as it was.  A run with a write attempt
    either reaches the final return, and the file holds what was written,
    or raises the exception of the failed write, and the file is what
    that write left: the old file when it could not be opened, an
    undecodable one when the write failed after the truncation. *)
Theorem state_changes_only_at_write e file :
  (writes (trace (snd (run e file))) = 0%nat ->
   state_file (snd (run e file)) = file) /\
  (forall doc,
     In (WriteState doc) (trace (snd (run e file))) ->
     (disk_writable e = true /\
      fst (run e file) = Ok Posted /\
      state_file (snd (run e file)) = Some doc) \/
     (disk_writable e = false /\
      fst (run e file) = Raise (raised_by (write_error e)) /\
      state_file (snd (run e file)) = left_by (write_error e) file)).
Proof.
  split.
  - run_paths e file; cbn; intros Hw; try reflexivity; discriminate.
  - intros doc. run_paths e file; cbn [In]; intros Hin;
      repeat match goal with
             | H : _ \/ _ |- _ => destruct H
             | H : False |- _ => destruct H
             | H : _ = WriteState _ |- _ => inversion H; subst; clear H
             end;
      auto.
Qed.

(** X3.  The results are requested only for the key of the resolved
    session, and only when that key is true and differs from the
    persisted one. *)
Theorem results_requested_only_past_the_gate e file k :
  In (GetResults k) (trace (snd (run e file))) ->
  exists sess d, passes_gate e file sess k d.
Proof.
  run_paths e file; cbn [In]; intros Hin;
    repeat match goal with
           | H : _ \/ _ |- _ => destruct H
           | H : False |- _ => destruct H
           | H : _ = GetResults _ |- _ => inversion H; subst; clear H
           end;
    eauto.
Qed.

(** X4.  The webhook is called only at the configured URL, only past the
    gate, only when there were rows and the title and every line of the
    first [TOP_N] rows were built, and with the text made of that title
    and those lines. *)
Theorem webhook_called_only_with_rendered_results e file url content :
  In (PostWebhook url content) (trace (snd (run e file))) ->
  exists sess sk d title lines,
    passes_gate e file sess sk d /\
    rendered e sess sk title lines /\
    DISCORD_WEBHOOK e = Some url /\
    content = content_of title lines.
Proof.
  run_paths e file; cbn [In]; intros Hin;
    repeat match goal with
           | H : _ \/ _ |- _ => destruct H
           | H : False |- _ => destruct H
           | H : _ = PostWebhook _ _ |- _ => inversion H; subst; clear H
           end;
    do 5 eexists; eauto.
Qed.

(** X5.  The state file is written only after [post_to_discord] has
    returned, and what is written is the loaded state with
    [last_posted_session_key] set to the session key, which is true: a
    run never persists a missing, null or empty key. *)
Theorem state_written_only_after_message e file doc :
  In (WriteState doc) (trace (snd (run e file))) ->
  exists sess sk d title lines ev,
    passes_gate e file sess sk d /\
    rendered e sess sk title lines /\
    notified e title lines ev /\
    doc = json_dumps (VDict (dict_set d last_posted_session_key sk)) /\
    lookup (dict_set d last_posted_session_key sk) last_posted_session_key
    = Some sk /\
    truthy sk = true.
Proof.
  run_paths e file; cbn [In]; intros Hin;
    repeat match goal with
           | H : _ \/ _ |- _ => destruct H
           | H : False |- _ => destruct H
           | H : _ = WriteState _ |- _ => inversion H; subst; clear H
           end.
  all: match goal with
       | Hg : passes_gate _ _ _ _ _ |- _ =>
           pose proof Hg as (_ & _ & _ & Htrue & _)
       end.
  all: do 6 eexists; split; [eassumption|]; split; [eassumption|].
  all: split; [|split; [reflexivity|split; [apply lookup_dict_set_eq|exact Htrue]]].
  all: unfold notified;
    first [ left; eexists; repeat split; first [eassumption|reflexivity]
          | right; split; [auto|reflexivity] ].
Qed.

(* ================================================================== *)
(** ** Delivery and its failures *)

(** Past the gate and with everything rendered, the run is the delivery. *)
Lemma run_rendered e file sess sk d title lines :
  passes_gate e file sess sk d ->
  rendered e sess sk title lines ->
  run e file =
  deliver e (VDict d) sk title lines
    {| state_file := file; trace := [GetSessions; GetResults sk] |}.
Proof.
  intros Hgate (r & rows & Hf & Ht & Hl). unfold run.
  rewrite (@main_after_gate e {| state_file := file; trace := [] |}
             sess sk d Hgate).
  unfold bind, lift. rewrite Hf, Ht, Hl. reflexivity.
Qed.

(** X6.  With no webhook configured ([DISCORD_WEBHOOK] unset or empty) a
    run that has results to post sends nothing, prints the notice, and
    still records the session as posted: it ends at the final return with
    the key written to the state file. *)
Theorem unconfigured_webhook_marks_posted e file sess sk d title lines :
  passes_gate e file sess sk d ->
  rendered e sess sk title lines ->
  DISCORD_WEBHOOK e = None \/ DISCORD_WEBHOOK e = Some [] ->
  disk_writable e = true ->
  run e file =
  (Ok Posted,
   {| state_file :=
        Some (json_dumps (VDict (dict_set d last_posted_session_key sk)));
      trace :=
        [GetSessions; GetResults sk;
         Print (lit "No DISCORD_WEBHOOK provided.");
         WriteState
           (json_dumps (VDict (dict_set d last_posted_session_key sk)));
         Print (lit "Posted session " ++ fmt e sk ++ lit ".")] |}).
Proof.
  intros Hgate Hrendered Hnone Hdisk.
  rewrite (run_rendered Hgate Hrendered).
  rewrite (@deliver_notified e d sk title lines
             (Print (lit "No DISCORD_WEBHOOK provided.")) _
             (or_intror (conj Hnone eq_refl))).
  rewrite Hdisk. reflexivity.
Qed.

(** X7.  When the webhook call raises, the run raises the same exception
    right after the call: nothing is written, the state file is as it
    was, and the session is not recorded as posted. *)
Theorem webhook_failure_leaves_state e file sess sk d title lines url x :
  passes_gate e file sess sk d ->
  rendered e sess sk title lines ->
  DISCORD_WEBHOOK e = Some url -> url <> [] ->
  webhook_api e url (content_of title lines) = Raise x ->
  run e file =
  (Raise x,
   {| state_file := file;
      trace := [GetSessions; GetResults sk;
                PostWebhook url (content_of title lines)] |}).
Proof.
  intros Hgate Hrendered Hurl Hne Hweb.
  rewrite (run_rendered Hgate Hrendered).
  rewrite (@deliver_post_failed e d sk title lines url x _ Hurl Hne Hweb).
  reflexivity.
Qed.

(** X8.  When the write of the state file fails, the run raises the
    exception of the write with the webhook call already made: the trace
    ends with the call followed by the write attempt and no confirmation
    is printed.  The state file is as it was when the file could not be
    opened; when the write failed after the file was truncated, be it on
    text that cannot be encoded, the file no longer decodes, and the next
    run loads the default state, which has no posted key. *)
Theorem failed_write_follows_post e file sess sk d title lines url :
  passes_gate e file sess sk d ->
  rendered e sess sk title lines ->
  DISCORD_WEBHOOK e = Some url -> url <> [] ->
  webhook_api e url (content_of title lines) = Ok tt ->
  disk_writable e = false ->
  run e file =
  (Raise (raised_by (write_error e)),
   {| state_file := left_by (write_error e) file;
      trace :=
        [GetSessions; GetResults sk;
         PostWebhook url (content_of title lines);
         WriteState
           (json_dumps (VDict (dict_set d last_posted_session_key sk)))] |})
  /\
  (forall x, write_error e = OpenFails x ->
     fst (run e file) = Raise x /\ state_file (snd (run e file)) = file)
  /\
  (forall x, write_error e = WriteFails x ->
     fst (run e file) = Raise x /\
     state_file (snd (run e file)) = Some Garbage /\
     loaded (state_file (snd (run e file))) = default_state /\
     persisted_key (state_file (snd (run e file))) = Ok VNone).
Proof.
  intros Hgate Hrendered Hurl Hne Hweb Hdisk.
  rewrite (run_rendered Hgate Hrendered).
  rewrite (@deliver_notified e d sk title lines
             (PostWebhook url (content_of title lines)) _).
  - rewrite Hdisk. cbn [fst snd state_file trace app].
    split; [reflexivity|].
    split; intros x ->; repeat split; reflexivity.
  - left. exists url. auto.
Qed.

(** X9.  An error of the data source ends the run with that error and
    nothing posted or written: at the sessions request the trace is that
    request alone, at the results request it is the two requests. *)
Theorem data_source_errors_propagate e file x :
  (sessions_api e = Raise x ->
   run e file =
   (Raise x, {| state_file := file; trace := [GetSessions] |}))
  /\
  (forall sess sk d,
     passes_gate e file sess sk d ->
     results_api e sk = Raise x ->
     run e file =
     (Raise x,
      {| state_file := file; trace := [GetSessions; GetResults sk] |})).
Proof.
  split.
  - intros Hapi. unfold run, main, bind.
    rewrite load_state_eq, get_latest_practice_session_eq.
    unfold resolve. rewrite Hapi. reflexivity.
  - intros sess sk d Hgate Hapi. unfold run.
    rewrite (@main_after_gate e {| state_file := file; trace := [] |}
               sess sk d Hgate).
    unfold bind, lift, fetch. rewrite Hapi. reflexivity.
Qed.

(** X10.  A state file that decodes to anything but an object is
    returned by [load_state] as it is, and the run of a session with a
    key then raises [AttributeError] at the gate, after the sessions
    request and before any results request. *)
Theorem non_object_state_raises_at_gate e file sess sk :
  resolve e = Ok sess ->
  get sess (lit "session_key") = Ok sk ->
  truthy sk = true ->
  (forall d, loaded file <> VDict d) ->
  run e file =
  (Raise AttributeError, {| state_file := file; trace := [GetSessions] |}).
Proof.
  intros Hr Hk Hsk Hnot.
  assert (Hs : truthy sess = true) by (eapply resolve_truthy; eauto).
  unfold run, main, bind.
  rewrite load_state_eq, get_latest_practice_session_eq, Hr, Hs. cbn [negb].
  unfold lift at 1. rewrite Hk, Hsk. cbn [negb].
  unfold lift at 1. cbn [state_file logged].
  destruct (loaded file) as [| | | | |d]; try reflexivity.
  exfalso. apply (Hnot d). reflexivity.
Qed.

Lemma py_eq_none (v : value) : py_eq VNone v = true -> v = VNone.
Proof. destruct v; simpl; congruence. Qed.

(** Past the gate the results request is the second action. *)
Lemma passes_gate_trace e file sess sk d :
  passes_gate e file sess sk d ->
  exists rest,
    trace (snd (run e file)) = GetSessions :: GetResults sk :: rest.
Proof.
  intros Hgate. unfold run.
  rewrite (@main_after_gate e {| state_file := file; trace := [] |}
             sess sk d Hgate).
  unfold bind at 1. unfold lift at 1.
  destruct (fetch e sk) as [[|r rows]|x]; try (eexists; reflexivity).
  unfold bind at 1. unfold lift at 1.
  destruct (title_of e sess) as [title|x]; [|eexists; reflexivity].
  unfold bind at 1. unfold lift at 1.
  destruct (lines_of e _) as [lines|x]; [|eexists; reflexivity].
  destruct (webhook_cases e title lines)
    as [(url & x & Hurl & Hne & Hweb) | [ev Hev]].
  - rewrite (@deliver_post_failed e d sk title lines url x _ Hurl Hne Hweb).
    eexists; reflexivity.
  - rewrite (@deliver_notified e d sk title lines ev _ Hev).
    destruct (disk_writable e); eexists; reflexivity.
Qed.

(** X11.  With no state file, or one that cannot be read or decoded,
    no session with a key is held back: the default state has a null key,
    which equals no true key, so the run goes on to request the
    results. *)
Theorem unusable_state_file_passes_gate e file sess sk :
  file = None \/ file = Some Garbage ->
  resolve e = Ok sess ->
  get sess (lit "session_key") = Ok sk ->
  truthy sk = true ->
  exists rest,
    trace (snd (run e file)) = GetSessions :: GetResults sk :: rest.
Proof.
  intros Hfile Hr Hk Hsk.
  apply (@passes_gate_trace e file sess sk [(last_posted_session_key, VNone)]).
  repeat split; try assumption.
  - destruct Hfile as [-> | ->]; reflexivity.
  - change (dict_get [(last_posted_session_key, VNone)] last_posted_session_key)
      with VNone.
    destruct (py_eq VNone sk) eqn:E; [|reflexivity].
    apply py_eq_none in E. subst sk. discriminate.
Qed.

(* ================================================================== *)
(** ** More on the resolver *)

Lemma practice_of_dicts sessions practice :
  practice_of sessions = Ok practice ->
  Forall is_dict sessions.
Proof.
  revert practice; induction sessions as [|s rest IH]; intros practice H.
  - constructor.
  - cbn [practice_of] in H.
    destruct s as [| | | | |d]; cbn [get rbind] in H; try discriminate.
    destruct (practice_of rest) as [p|]; cbn [rbind] in H; [|discriminate].
    constructor; [exists d; reflexivity|eapply IH; reflexivity].
Qed.

(** X12.  Whenever the resolver returns, every entry of the payload is
    an object and the result is either [None], with no entry typed
    ["Practice"], or one of the entries typed ["Practice"]: it never
    returns a session of another type. *)
Theorem resolver_returns_practice_entry e s sess s' r sessions :
  get_latest_practice_session e s = (Ok sess, s') ->
  sessions_api e = Ok r ->
  iter r = Ok sessions ->
  Forall is_dict sessions /\
  ((sess = VNone /\ filter is_practice sessions = []) \/
   (In sess sessions /\ is_practice sess = true)).
Proof.
  rewrite get_latest_practice_session_eq. intros H Hapi Hiter.
  injection H as H _. unfold resolve in H.
  rewrite Hapi in H. cbn [rbind] in H. rewrite Hiter in H. cbn [rbind] in H.
  destruct (practice_of sessions) as [practice|] eqn:Hp;
    cbn [rbind] in H; [|discriminate].
  pose proof (practice_of_dicts _ Hp) as Hdicts.
  split; [exact Hdicts|].
  rewrite (practice_of_filter Hdicts) in Hp. injection Hp as <-.
  destruct (filter is_practice sessions) as [|p practice] eqn:Hf.
  - left. injection H as <-. auto.
  - right.
    destruct (sort_by sort_key (p :: practice)) as [sorted|] eqn:Hs;
      cbn [rbind] in H; [|discriminate].
    injection H as <-.
    pose proof (sort_by_perm _ _ Hs) as Hperm.
    assert (Hin : In (last sorted VNone) (filter is_practice sessions)).
    { rewrite Hf. eapply Permutation_in; [apply Permutation_sym, Hperm|].
      apply last_In. intros ->.
      apply Permutation_sym, Permutation_nil in Hperm. discriminate. }
    apply filter_In in Hin. exact Hin.
Qed.

(** X13.  One entry of the sessions payload that is not an object makes
    the resolver raise [AttributeError], whatever the other entries are
    and even when the entry would not have been a practice session. *)
Theorem malformed_entry_raises e s sessions :
  sessions_api e = Ok (VList sessions) ->
  Exists (fun x => forall d, x <> VDict d) sessions ->
  get_latest_practice_session e s
  = (Raise AttributeError, logged s [GetSessions]).
Proof.
  intros Hapi Hbad. rewrite get_latest_practice_session_eq. f_equal.
  unfold resolve. rewrite Hapi. cbn [rbind iter].
  replace (practice_of sessions) with (@Raise (list value) AttributeError);
    [reflexivity|].
  symmetry. clear Hapi.
  induction sessions as [|x rest IH]; [inversion Hbad|].
  cbn [practice_of].
  destruct x as [| | | | |d]; try reflexivity.
  cbn [get rbind]. rewrite IH; [reflexivity|].
  inversion Hbad as [? ? Hx|]; subst; [|assumption].
  exfalso. apply (Hx d). reflexivity.
Qed.

Lemma sort_key_dict d : exists k, sort_key (VDict d) = Ok k.
Proof.
  unfold sort_key, or_else. cbn [get rbind].
  destruct (truthy (dict_get d (lit "date_end"))); [eauto|].
  destruct (truthy (dict_get d (lit "date_start"))); eauto.
Qed.

(** X14.  When exactly one entry is typed ["Practice"], the resolver
    returns it without comparing anything: its timestamps may be absent
    or of any type. *)
Theorem single_practice_entry_returned e s sessions p :
  sessions_api e = Ok (VList sessions) ->
  Forall is_dict sessions ->
  filter is_practice sessions = [p] ->
  get_latest_practice_session e s = (Ok p, logged s [GetSessions]).
Proof.
  intros Hapi Hdicts Hone. rewrite get_latest_practice_session_eq. f_equal.
  unfold resolve. rewrite Hapi. cbn [rbind iter].
  rewrite (practice_of_filter Hdicts), Hone. cbn [rbind].
  assert (Hp : is_dict p).
  { rewrite Forall_forall in Hdicts. apply Hdicts.
    assert (Hin : In p (filter is_practice sessions)) by (rewrite Hone; left; reflexivity).
    apply filter_In in Hin. apply Hin. }
  destruct Hp as [d ->]. destruct (sort_key_dict d) as [k Hk].
  unfold sort_by. cbn [keyed rbind]. rewrite Hk. reflexivity.
Qed.

(* ================================================================== *)
(** ** More on the results *)

Lemma keyed_dicts (l : list value) kl :
  keyed position_key l = Ok kl -> Forall is_dict l.
Proof.
  revert kl; induction l as [|x l IH]; intros kl H; [constructor|].
  cbn [keyed] in H.
  destruct x as [| | | | |d]; cbn [position_key get rbind] in H;
    try discriminate.
  destruct (or_else _ _); cbn [rbind] in H; [|discriminate].
  destruct (keyed position_key l) as [kl'|]; cbn [rbind] in H; [|discriminate].
  constructor; [exists d; reflexivity|eapply IH; reflexivity].
Qed.

(** X15.  Whenever [get_session_results] returns, what it returns is the
    rows of the payload, every one of them an object, in another order:
    no row is dropped, added or changed, whatever the rows hold. *)
Theorem results_are_the_payload_rows e sk s out s' :
  get_session_results e sk s = (Ok out, s') ->
  exists r rows,
    results_api e sk = Ok r /\
    iter r = Ok rows /\
    Permutation rows out /\
    Forall is_dict out.
Proof.
  rewrite get_session_results_eq. intros H. injection H as H _.
  unfold fetch in H.
  destruct (results_api e sk) as [r|] eqn:Hapi; cbn [rbind] in H; [|discriminate].
  destruct (iter r) as [rows|] eqn:Hiter; cbn [rbind] in H; [|discriminate].
  exists r, rows. split; [reflexivity|]. split; [exact Hiter|].
  pose proof (sort_by_perm _ _ H) as Hperm. split; [exact Hperm|].
  unfold sort_by in H.
  destruct (keyed position_key rows) as [kl|] eqn:Hk; cbn [rbind] in H;
    [|discriminate].
  eapply Permutation_Forall; [exact Hperm|].
  eapply keyed_dicts; exact Hk.
Qed.

Lemma sorted_after (R : value -> value -> Prop) l1 a l2 :
  StronglySorted R (l1 ++ a :: l2) -> Forall (R a) l2.
Proof.
  induction l1 as [|x l1 IH]; cbn [app]; intros H.
  - inversion H; assumption.
  - inversion H; auto.
Qed.

(** X16.  The sentinel 9999 is not a maximum: a row whose position is
    above 9999 is listed after every row without a position, so no row
    listed after it is ordered at 9999 or below. *)
Theorem position_above_sentinel_is_last e sk rows s out s' l1 a l2 :
  results_api e sk = Ok (VList rows) ->
  Forall result_object rows ->
  get_session_results e sk s = (Ok out, s') ->
  out = l1 ++ a :: l2 ->
  9999 < order_position a ->
  Forall (fun b => 9999 < order_position b) l2.
Proof.
  intros Hapi Hrows Hget Hout Ha.
  destruct (fetch_sorted e sk Hapi Hrows) as (out' & Hf & _ & Hsorted & _).
  rewrite get_session_results_eq, Hf in Hget. injection Hget as -> _.
  subst out. apply sorted_after in Hsorted.
  eapply Forall_impl; [|exact Hsorted]. cbv beta. intros b Hb. lia.
Qed.

Lemma insert_scalar x s :
  int_key x \/ str_key x ->
  Forall (fun p => int_key p \/ str_key p) s ->
  (exists r, insert x s = Ok r) \/ insert x s = Raise TypeError.
Proof.
  intros Hx Hs. induction Hs as [|y s Hy _ IH]; [left; eexists; reflexivity|].
  cbn [insert].
  destruct Hx as [[zx Hx] | [tx Hx]], Hy as [[zy Hy] | [ty Hy]];
    rewrite Hx, Hy; cbn [py_lt rbind]; try (right; reflexivity).
  - destruct (zy <? zx); [|left; eexists; reflexivity].
    destruct IH as [[r ->] | ->]; [left; eexists; reflexivity|right; reflexivity].
  - destruct (str_ltb ty tx); [|left; eexists; reflexivity].
    destruct IH as [[r ->] | ->]; [left; eexists; reflexivity|right; reflexivity].
Qed.

Lemma isort_scalar l :
  Forall (fun p => int_key p \/ str_key p) l ->
  (exists r, isort l = Ok r) \/ isort l = Raise TypeError.
Proof.
  induction 1 as [|x l Hx Hl IH]; [left; eexists; reflexivity|].
  cbn [isort]. destruct IH as [[r Hr] | ->]; [|right; reflexivity].
  rewrite Hr. cbn [rbind]. apply insert_scalar; [exact Hx|].
  eapply Permutation_Forall; [apply isort_perm; exact Hr|exact Hl].
Qed.

Lemma one_kind_or_both l :
  Forall (fun p => int_key p \/ str_key p) l ->
  Forall int_key l \/ Forall str_key l \/ (Exists int_key l /\ Exists str_key l).
Proof.
  induction 1 as [|x l Hx _ IH]; [left; constructor|].
  destruct IH as [Hi | [Hs | [Hi Hs]]].
  - destruct Hx as [Hx | Hx]; [left; constructor; assumption|].
    destruct l as [|y l]; [right; left; constructor; [assumption|constructor]|].
    right; right. split; [right; left; inversion Hi; assumption|left; assumption].
  - destruct Hx as [Hx | Hx]; [|right; left; constructor; assumption].
    destruct l as [|y l]; [left; constructor; [assumption|constructor]|].
    right; right. split; [left; assumption|right; left; inversion Hs; assumption].
  - right; right. split; right; assumption.
Qed.

(** A list whose keys are integers and strings, with both kinds there,
    cannot be sorted: some comparison is between an integer and a
    string. *)
Lemma isort_mixed l :
  Forall (fun p => int_key p \/ str_key p) l ->
  Exists int_key l -> Exists str_key l ->
  isort l = Raise TypeError.
Proof.
  induction l as [|x l IH]; intros Hall Hint Hstr; [inversion Hint|].
  inversion Hall as [|? ? Hx Hl]; subst. cbn [isort].
  destruct (isort_scalar Hl) as [[r Hr] | ->]; [|reflexivity].
  rewrite Hr. cbn [rbind].
  pose proof (isort_perm _ Hr) as Hperm.
  destruct (one_kind_or_both Hl) as [Hi | [Hs | [Hi Hs]]].
  - (* the rest are integers, so the string is [x] *)
    assert (Hxs : str_key x).
    { inversion Hstr as [? ? H|? ? H]; subst; [exact H|].
      exfalso. apply Exists_exists in H. destruct H as (p & Hp & [t Ht]).
      rewrite Forall_forall in Hi. destruct (Hi p Hp) as [z Hz]. congruence. }
    destruct r as [|y r].
    { apply Permutation_sym, Permutation_nil in Hperm. subst l.
      inversion Hint as [? ? H|? ? H]; subst; [|inversion H].
      destruct H as [z Hz], Hxs as [t Ht]. congruence. }
    assert (Hy : int_key y).
    { rewrite Forall_forall in Hi. apply Hi.
      eapply Permutation_in; [apply Permutation_sym, Hperm|left; reflexivity]. }
    destruct Hxs as [t Ht], Hy as [z Hz]. cbn [insert]. rewrite Ht, Hz. reflexivity.
  - assert (Hxi : int_key x).
    { inversion Hint as [? ? H|? ? H]; subst; [exact H|].
      exfalso. apply Exists_exists in H. destruct H as (p & Hp & [z Hz]).
      rewrite Forall_forall in Hs. destruct (Hs p Hp) as [t Ht]. congruence. }
    destruct r as [|y r].
    { apply Permutation_sym, Permutation_nil in Hperm. subst l.
      inversion Hstr as [? ? H|? ? H]; subst; [|inversion H].
      destruct H as [t Ht], Hxi as [z Hz]. congruence. }
    assert (Hy : str_key y).
    { rewrite Forall_forall in Hs. apply Hs.
      eapply Permutation_in; [apply Permutation_sym, Hperm|left; reflexivity]. }
    destruct Hxi as [z Hz], Hy as [t Ht]. cbn [insert]. rewrite Ht, Hz. reflexivity.
  - rewrite (IH Hl Hi Hs) in Hr. discriminate.
Qed.

Lemma position_key_text x :
  text_position x -> exists t, position_key x = Ok (VStr t).
Proof.
  intros (d & c & t & -> & Hd). exists (c :: t).
  unfold position_key, or_else. cbn [get rbind]. unfold dict_get.
  rewrite Hd. reflexivity.
Qed.

(** X17.  When some rows give their position as a non-empty string and
    others as an integer (or not at all, which counts as 9999), the
    results cannot be ordered: [get_session_results] raises [TypeError]
    after the request. *)
Theorem mixed_positions_raise e sk rows s :
  results_api e sk = Ok (VList rows) ->
  Forall (fun x => result_object x \/ text_position x) rows ->
  Exists result_object rows ->
  Exists text_position rows ->
  get_session_results e sk s = (Raise TypeError, logged s [GetResults sk]).
Proof.
  intros Hapi Hall Hint Hstr.
  rewrite get_session_results_eq. f_equal.
  unfold fetch. rewrite Hapi. cbn [rbind iter]. unfold sort_by.
  assert (Hk : exists kl,
             keyed position_key rows = Ok kl /\
             Forall (fun p => int_key p \/ str_key p) kl /\
             (Exists result_object rows -> Exists int_key kl) /\
             (Exists text_position rows -> Exists str_key kl)).
  { clear Hint Hstr Hapi.
    induction Hall as [|x rows Hx _ (kl & Hkl & Hscal & Hi & Hs)].
    - exists []. repeat split; [constructor|intros H; inversion H..].
    - assert (Hkey : exists k, position_key x = Ok k /\
                       (result_object x -> int_key (k, x)) /\
                       (text_position x -> str_key (k, x)) /\
                       (int_key (k, x) \/ str_key (k, x))).
      { destruct Hx as [Hx | Hx].
        - exists (VInt (order_position x)).
          split; [apply position_key_typed; exact Hx|].
          split; [intros _; eexists; reflexivity|].
          split; [|left; eexists; reflexivity].
          intros (d & c & t & Hd & Hp). destruct Hx as (d' & Hd' & Hp').
          rewrite Hd in Hd'. injection Hd' as <-. rewrite Hp in Hp'. destruct Hp'.
        - destruct (position_key_text Hx) as [t Ht]. exists (VStr t).
          split; [exact Ht|].
          split; [|split; [intros _; eexists; reflexivity|right; eexists; reflexivity]].
          intros (d' & Hd' & Hp'). destruct Hx as (d & c & t' & Hd & Hp).
          rewrite Hd in Hd'. injection Hd' as <-. rewrite Hp in Hp'. destruct Hp'. }
      destruct Hkey as (k & Hkx & Hki & Hks & Hkk).
      exists ((k, x) :: kl). cbn [keyed]. rewrite Hkx, Hkl. cbn [rbind].
      split; [reflexivity|]. split; [constructor; assumption|].
      split; intros H; inversion H; subst; auto. }
  destruct Hk as (kl & Hkl & Hscal & Hi & Hs).
  rewrite Hkl. cbn [rbind].
  rewrite (isort_mixed Hscal (Hi Hint) (Hs Hstr)). reflexivity.
Qed.

(* ================================================================== *)
(** ** More on the message *)

(** X18.  When the chosen timestamp ([date_end], or [date_start] when
    [date_end] is absent or empty) is a non-empty string that parses,
    [format_when] returns what the conversion to the local zone printed
    for it. *)
Theorem format_when_formats e d iso text :
  py_or (dict_get d (lit "date_end")) (dict_get d (lit "date_start")) = VStr iso ->
  iso <> [] ->
  local_strftime e (LOCAL_TZ e) (with_utc_offset iso) = Ok text ->
  format_when e (VDict d) = Ok (VStr text).
Proof.
  intros Hiso Hne Hparse.
  unfold format_when, or_else. cbn [get rbind]. unfold py_or in Hiso.
  destruct (truthy (dict_get d (lit "date_end"))); cbn [rbind]; rewrite Hiso.
  all: destruct iso as [|c iso]; [congruence|].
  all: cbn [truthy negb format_when_try].
  all: unfold with_utc_offset in Hparse; rewrite Hparse; reflexivity.
Qed.

(** X19.  A chosen timestamp that is true but not a string (a number of
    seconds, say) is returned as it is, not as text: [iso.replace] raises
    inside the [try] and the fallback returns [iso]. *)
Theorem format_when_keeps_non_text e d v :
  py_or (dict_get d (lit "date_end")) (dict_get d (lit "date_start")) = v ->
  truthy v = true ->
  (forall t, v <> VStr t) ->
  format_when e (VDict d) = Ok v.
Proof.
  intros Hv Htrue Hnot.
  unfold format_when, or_else. cbn [get rbind]. unfold py_or in Hv.
  destruct (truthy (dict_get d (lit "date_end"))); cbn [rbind]; rewrite Hv, Htrue.
  all: cbn [negb]; destruct v; try reflexivity.
  all: exfalso; eapply Hnot; reflexivity.
Qed.

(** The replacement leaves no "Z", and lengthens the text by five
    characters for each one replaced. *)
Lemma with_utc_offset_spec (iso : str) :
  ~ In 90%N (with_utc_offset iso) /\
  List.length (with_utc_offset iso)
  = (List.length iso + 5 * count_occ N.eq_dec iso 90%N)%nat.
Proof.
  unfold with_utc_offset, str_replace.
  induction iso as [|c iso [IHin IHlen]]; [split; [intros []|reflexivity]|].
  cbn [flat_map count_occ]. destruct (N.eqb_spec c 90) as [->|Hc].
  - destruct (N.eq_dec 90 90) as [_|Hn]; [|congruence]. split.
    + intros Hin. apply in_app_or in Hin. destruct Hin as [Hin|Hin]; [|auto].
      vm_compute in Hin. intuition discriminate.
    + rewrite length_app, IHlen. cbn. lia.
  - destruct (N.eq_dec c 90) as [Heq|_]; [congruence|]. split.
    + intros [Hin|Hin]; [congruence|auto].
    + cbn [app List.length]. rewrite IHlen. reflexivity.
Qed.

(** What [format_when] makes of a chosen timestamp that is a non-empty
    string: one call of the parser, on the timestamp with its "Z"s
    replaced. *)
Lemma format_when_text e d iso :
  py_or (dict_get d (lit "date_end")) (dict_get d (lit "date_start")) = VStr iso ->
  iso <> [] ->
  format_when e (VDict d)
  = match local_strftime e (LOCAL_TZ e) (with_utc_offset iso) with
    | Ok text => Ok (VStr text)
    | Raise _ => Ok (VStr iso)
    end.
Proof.
  intros Hiso Hne.
  unfold format_when, or_else. cbn [get rbind]. unfold py_or in Hiso.
  destruct (truthy (dict_get d (lit "date_end"))); cbn [rbind]; rewrite Hiso.
  all: destruct iso as [|c iso]; [congruence|].
  all: cbn [truthy negb format_when_try]; reflexivity.
Qed.

(** X20.  [format_when] replaces every "Z" of the chosen timestamp,
    wherever it stands, before the one call of the parser it makes: it
    returns what the parser makes of the replaced text, or the timestamp
    when the parser raises on it; that text holds no "Z" and is longer
    than the timestamp by five characters for each "Z"; and what
    [format_when] returns is the same under any parser that answers
    alike on the texts without a "Z". *)
Theorem parser_never_sees_Z e d iso :
  py_or (dict_get d (lit "date_end")) (dict_get d (lit "date_start")) = VStr iso ->
  iso <> [] ->
  format_when e (VDict d)
  = match local_strftime e (LOCAL_TZ e) (with_utc_offset iso) with
    | Ok text => Ok (VStr text)
    | Raise _ => Ok (VStr iso)
    end /\
  ~ In 90%N (with_utc_offset iso) /\
  List.length (with_utc_offset iso)
  = (List.length iso + 5 * count_occ N.eq_dec iso 90%N)%nat /\
  (forall e',
     LOCAL_TZ e' = LOCAL_TZ e ->
     (forall text, ~ In 90%N text ->
        local_strftime e' (LOCAL_TZ e) text = local_strftime e (LOCAL_TZ e) text) ->
     format_when e' (VDict d) = format_when e (VDict d)).
Proof.
  intros Hiso Hne.
  destruct (with_utc_offset_spec iso) as [Hz Hlen].
  split; [apply format_when_text; assumption|].
  split; [exact Hz|]. split; [exact Hlen|].
  intros e' Htz Hsame.
  rewrite (@format_when_text e d iso Hiso Hne),
    (@format_when_text e' d iso Hiso Hne), Htz, (Hsame _ Hz).
  reflexivity.
Qed.

Lemma or_default_text d k (dflt : str) :
  text_or_absent d k -> dflt <> [] ->
  or_else (dict_get d k) (Ok (VStr dflt))
  = Ok (VStr match text_field d k with [] => dflt | t => t end).
Proof.
  unfold text_or_absent, or_else, dict_get, text_field.
  destruct (lookup d k) as [[| | |[|c s]| |]|]; intros H Hd;
    try contradiction; cbn [truthy]; try reflexivity.
Qed.

Lemma title_of_typed e sd when :
  text_or_absent sd (lit "meeting_name") ->
  text_or_absent sd (lit "country_name") ->
  text_or_absent sd (lit "session_name") ->
  format_when e (VDict sd) = Ok when ->
  title_of e (VDict sd) = Ok (stated_title sd (fmt e when)).
Proof.
  intros Hm Hc Hs Hwhen. unfold title_of, stated_title. cbn [get rbind].
  rewrite (@or_default_text sd (lit "session_name") (lit "Practice") Hs)
    by discriminate.
  rewrite Hwhen. cbn [rbind].
  assert (Hgp :
    or_else (dict_get sd (lit "meeting_name"))
            (or_else (dict_get sd (lit "country_name"))
                     (Ok (VStr (lit "Grand Prix"))))
    = Ok (VStr match text_field sd (lit "meeting_name") with
               | [] => match text_field sd (lit "country_name") with
                       | [] => lit "Grand Prix"
                       | t => t
                       end
               | t => t
               end)).
  { rewrite (@or_default_text sd (lit "country_name") (lit "Grand Prix") Hc)
      by discriminate.
    unfold text_or_absent, or_else, dict_get, text_field in *.
    destruct (lookup sd (lit "meeting_name")) as [[| | |[|c s]| |]|];
      try contradiction; reflexivity. }
  rewrite Hgp. cbn [rbind fmt]. reflexivity.
Qed.

(** X21.  Whatever is sent to the webhook for a session whose names are
    strings or absent starts with the title in bold:
    the meeting name, or else the country name, or else "Grand Prix",
    then the session name, or else "Practice", then the formatted time
    in brackets; the lines follow, one per row. *)
Theorem posted_title_has_defaults e file url content sd :
  In (PostWebhook url content) (trace (snd (run e file))) ->
  resolve e = Ok (VDict sd) ->
  text_or_absent sd (lit "meeting_name") ->
  text_or_absent sd (lit "country_name") ->
  text_or_absent sd (lit "session_name") ->
  exists when lines,
    format_when e (VDict sd) = Ok when /\
    content = lit "**" ++ stated_title sd (fmt e when) ++ lit "**" ++ [10%N]
              ++ join [10%N] lines.
Proof.
  intros Hin Hr Hm Hc Hs.
  destruct (format_when_total e sd) as [when Hwhen].
  pose proof (@title_of_typed e sd when Hm Hc Hs Hwhen) as Htitle.
  exists when. revert Hin.
  run_paths e file; cbn [In]; intros Hin;
    repeat match goal with
           | H : _ \/ _ |- _ => destruct H
           | H : False |- _ => destruct H
           | H : _ = PostWebhook _ _ |- _ => inversion H; subst; clear H
           end.
  all: match goal with
       | Hg : passes_gate _ _ ?sess _ _, Hrd : rendered _ ?sess _ ?title ?lines |- _ =>
           destruct Hg as (_ & Hr' & _); rewrite Hr in Hr';
           injection Hr' as <-;
           destruct Hrd as (? & ? & _ & Ht & _);
           rewrite Htitle in Ht; injection Ht as <-;
           exists lines; split; [exact Hwhen|reflexivity]
       end.
Qed.

Lemma lines_of_length e rows lines :
  lines_of e rows = Ok lines -> List.length lines = List.length rows.
Proof.
  revert lines; induction rows as [|x rows IH]; intros lines H.
  - injection H as <-. reflexivity.
  - cbn [lines_of] in H.
    destruct (line_of e x); cbn [rbind] in H; [|discriminate].
    destruct (lines_of e rows) as [ls|]; cbn [rbind] in H; [|discriminate].
    injection H as <-. cbn [List.length]. f_equal. apply IH. reflexivity.
Qed.

(** X22.  The number of lines follows Python's slice: with [TOP_N] zero
    or positive it is the smaller of [TOP_N] and the number of rows (none
    for 0); with [TOP_N] negative the last [-TOP_N] rows are left out, and
    nothing is listed when there are no more rows than that. *)
Theorem line_count_follows_slice e rows lines :
  lines_of e (slice_to rows (TOP_N e)) = Ok lines ->
  Z.of_nat (List.length lines) =
  if TOP_N e <? 0
  then Z.max 0 (Z.of_nat (List.length rows) + TOP_N e)
  else Z.min (TOP_N e) (Z.of_nat (List.length rows)).
Proof.
  intros H. rewrite (lines_of_length _ _ H). unfold slice_to.
  destruct (Z.ltb_spec (TOP_N e) 0); rewrite length_firstn; lia.
Qed.

Lemma lstrip_head chars s c :
  hd_error (lstrip chars s) = Some c -> char_in chars c = false.
Proof.
  induction s as [|x s IH]; cbn [lstrip]; [discriminate|].
  destruct (char_in chars x) eqn:Hx; [exact IH|].
  cbn [hd_error]. intros H. injection H as <-. exact Hx.
Qed.

Lemma lstrip_clean chars s :
  (forall c, hd_error s = Some c -> char_in chars c = false) ->
  lstrip chars s = s.
Proof.
  destruct s as [|x s]; [reflexivity|]. intros H. cbn [lstrip].
  rewrite (H x eq_refl). reflexivity.
Qed.

Lemma lstrip_app_dropped chars a s :
  forallb (char_in chars) a = true ->
  lstrip chars (a ++ s) = lstrip chars s.
Proof.
  induction a as [|x a IH]; [reflexivity|].
  cbn [forallb app lstrip]. intros H. apply andb_true_iff in H.
  destruct H as [-> Ha]. auto.
Qed.

Lemma lstrip_suffix chars s : exists dropped, s = dropped ++ lstrip chars s.
Proof.
  induction s as [|x s [dropped IH]]; [exists []; reflexivity|].
  cbn [lstrip]. destruct (char_in chars x).
  - exists (x :: dropped). cbn [app]. f_equal. exact IH.
  - exists []. reflexivity.
Qed.

Lemma rstrip_prefix chars s : exists dropped, s = rstrip chars s ++ dropped.
Proof.
  unfold rstrip. destruct (lstrip_suffix chars (rev s)) as [dropped H].
  exists (rev dropped). rewrite <- rev_app_distr, <- H, rev_involutive.
  reflexivity.
Qed.

(** What [strip] returns neither begins nor ends with a stripped
    character. *)
Lemma strip_clean_ends chars s : clean_ends chars (strip chars s).
Proof.
  unfold clean_ends, strip. split; intros c Hc.
  - destruct (rstrip_prefix chars (lstrip chars s)) as [dropped H].
    apply (lstrip_head chars s). rewrite H.
    destruct (rstrip chars (lstrip chars s)); [discriminate|exact Hc].
  - unfold rstrip in Hc. rewrite rev_involutive in Hc.
    eapply lstrip_head; exact Hc.
Qed.

Lemma strip_clean chars s : clean_ends chars s -> strip chars s = s.
Proof.
  intros [Hhead Hlast]. unfold strip, rstrip.
  rewrite (lstrip_clean chars s Hhead), (lstrip_clean chars (rev s) Hlast).
  apply rev_involutive.
Qed.

Lemma line_of_name e d :
  result_row (VDict d) ->
  exists rest,
    line_of e (VDict d)
    = Ok (position_text d ++ lit ". " ++ name_segment d
          ++ lit " " ++ em_dash ++ rest).
Proof.
  intros Hrow. rewrite (line_of_typed e Hrow).
  eexists. unfold stated_line, name_segment. reflexivity.
Qed.

(** X23.  In the line of a row the name segment, which follows the
    position and its period, neither begins nor ends with a period or a
    space, whatever the names are: a surname written with a closing
    period loses it. *)
Theorem name_segment_has_clean_ends e d :
  result_row (VDict d) ->
  (exists rest,
     line_of e (VDict d)
     = Ok (position_text d ++ lit ". " ++ name_segment d
           ++ lit " " ++ em_dash ++ rest)) /\
  clean_ends (lit ". ") (name_segment d).
Proof.
  intros Hrow. split; [apply line_of_name; exact Hrow|].
  apply strip_clean_ends.
Qed.

(** X24.  A row without a first name (absent or empty) shows the bare
    surname: the period and the space that would follow the initial are
    stripped with it, and a surname that itself has no period or space
    at its ends is shown unchanged. *)
Theorem missing_first_name_shows_surname e d :
  result_row (VDict d) ->
  text_field d (lit "driver_first_name") = [] ->
  clean_ends (lit ". ") (text_field d (lit "driver_last_name")) ->
  exists rest,
    line_of e (VDict d)
    = Ok (position_text d ++ lit ". "
          ++ text_field d (lit "driver_last_name")
          ++ lit " " ++ em_dash ++ rest).
Proof.
  intros Hrow Hfirst Hclean.
  destruct (line_of_name e Hrow) as [rest Hline]. exists rest.
  rewrite Hline. do 4 f_equal.
  unfold name_segment. rewrite Hfirst. cbn [firstn app].
  unfold strip.
  rewrite (lstrip_app_dropped (lit ". ") (lit ". ")
             (text_field d (lit "driver_last_name")) eq_refl).
  apply (strip_clean Hclean).
Qed.

(* ================================================================== *)
(** ** The further theorems at work on the scenario *)

Lemma race_gate e :
  sessions_api e = Ok (VList [practice_1]) ->
  passes_gate e None practice_1 (VInt 9999) [(last_posted_session_key, VNone)].
Proof.
  intros Hapi. unfold passes_gate, resolve. rewrite Hapi.
  repeat split; reflexivity.
Qed.

Lemma race_rendered e :
  results_api e (VInt 9999) = Ok (VList three_rows) ->
  TOP_N e = 10 ->
  local_strftime e = (fun _ _ => Raise ValueError) ->
  rendered e practice_1 (VInt 9999) race_title race_lines.
Proof.
  intros Hapi Htop Hclock.
  exists (driver (VInt 1) "Lando" "Norris" "McLaren" "1:10.7"),
    [driver (VInt 2) "Max" "Verstappen" "Red Bull Racing" "1:10.9";
     VDict [(lit "position", VNone); (lit "driver_last_name", VStr (lit "Sainz"))]].
  unfold fetch, title_of, format_when, format_when_try.
  rewrite Hapi, Htop, Hclock. repeat split; reflexivity.
Qed.

Lemma state_changes_only_at_write_witness :
  state_file (snd (run webhook_down (Some (Json annotated_state))))
  = Some (Json annotated_state) /\
  (disk_writable unencodable_state = false /\
   fst (run unencodable_state (Some (Json annotated_state))) = Raise ValueError /\
   state_file (snd (run unencodable_state (Some (Json annotated_state))))
   = Some Garbage).
Proof.
  split.
  - apply (proj1 (state_changes_only_at_write webhook_down
                    (Some (Json annotated_state)))).
    reflexivity.
  - destruct (proj2 (state_changes_only_at_write unencodable_state
                       (Some (Json annotated_state)))
                (json_dumps
                   (VDict (dict_set [(lit "note", VStr (lit "kept by hand"));
                                     (last_posted_session_key, VInt 9998);
                                     (lit "runs", VInt 41)]
                                    last_posted_session_key (VInt 9999)))))
      as [(Hdisk & _) | H].
    + vm_compute. auto.
    + discriminate Hdisk.
    + exact H.
Defined.

Lemma results_requested_only_past_the_gate_witness :
  exists sess d, passes_gate race_weekend None sess (VInt 9999) d.
Proof.
  apply (@results_requested_only_past_the_gate race_weekend None (VInt 9999)).
  vm_compute. auto.
Defined.

Lemma webhook_called_only_with_rendered_results_witness :
  exists sess sk d title lines,
    passes_gate race_weekend None sess sk d /\
    rendered race_weekend sess sk title lines /\
    DISCORD_WEBHOOK race_weekend = Some hook_url /\
    race_content = content_of title lines.
Proof.
  apply (@webhook_called_only_with_rendered_results race_weekend None
           hook_url race_content).
  vm_compute. auto.
Defined.

Lemma state_written_only_after_message_witness :
  exists sess sk d title lines ev,
    passes_gate race_weekend None sess sk d /\
    rendered race_weekend sess sk title lines /\
    notified race_weekend title lines ev /\
    json_dumps (VDict race_state)
    = json_dumps (VDict (dict_set d last_posted_session_key sk)) /\
    lookup (dict_set d last_posted_session_key sk) last_posted_session_key
    = Some sk /\
    truthy sk = true.
Proof.
  apply (@state_written_only_after_message race_weekend None
           (json_dumps (VDict race_state))).
  vm_compute. auto.
Defined.

Lemma unconfigured_webhook_marks_posted_witness :
  run no_webhook None =
  (Ok Posted,
   {| state_file := Some (json_dumps (VDict race_state));
      trace :=
        [GetSessions; GetResults (VInt 9999);
         Print (lit "No DISCORD_WEBHOOK provided.");
         WriteState (json_dumps (VDict race_state));
         Print (lit "Posted session 9999.")] |}).
Proof.
  apply (@unconfigured_webhook_marks_posted no_webhook None practice_1
           (VInt 9999) [(last_posted_session_key, VNone)] race_title race_lines).
  - apply race_gate. reflexivity.
  - apply race_rendered; reflexivity.
  - left. reflexivity.
  - reflexivity.
Defined.

Lemma webhook_failure_leaves_state_witness :
  run webhook_down None =
  (Raise RequestException,
   {| state_file := None;
      trace := [GetSessions; GetResults (VInt 9999);
                PostWebhook hook_url race_content] |}).
Proof.
  apply (@webhook_failure_leaves_state webhook_down None practice_1
           (VInt 9999) [(last_posted_session_key, VNone)] race_title race_lines
           hook_url RequestException).
  - apply race_gate. reflexivity.
  - apply race_rendered; reflexivity.
  - reflexivity.
  - discriminate.
  - reflexivity.
Defined.

Lemma failed_write_follows_post_witness :
  run unencodable_state None =
  (Raise ValueError,
   {| state_file := Some Garbage;
      trace :=
        [GetSessions; GetResults (VInt 9999);
         PostWebhook hook_url race_content;
         WriteState (json_dumps (VDict race_state))] |}).
Proof.
  apply (@failed_write_follows_post unencodable_state None practice_1
           (VInt 9999) [(last_posted_session_key, VNone)] race_title race_lines
           hook_url).
  - apply race_gate. reflexivity.
  - apply race_rendered; reflexivity.
  - reflexivity.
  - discriminate.
  - reflexivity.
  - reflexivity.
Defined.

Lemma parser_never_sees_Z_witness :
  format_when (listing 10 amsterdam_clock race_weekend) (VDict zulu_session)
  = Ok (VStr (lit "Fri 23 Aug 2024 13:30 CEST")) /\
  ~ In 90%N (lit "2024-08-23T11:30:00+00:00") /\
  List.length (lit "2024-08-23T11:30:00+00:00") = 25%nat.
Proof.
  destruct (@parser_never_sees_Z (listing 10 amsterdam_clock race_weekend)
              zulu_session (lit "2024-08-23T11:30:00Z"))
    as (Hwhen & Hz & Hlen & _).
  - reflexivity.
  - discriminate.
  - split; [exact Hwhen|]. split; [exact Hz|exact Hlen].
Defined.

Lemma data_source_errors_propagate_witness :
  run source_down None =
  (Raise RequestException, {| state_file := None; trace := [GetSessions] |})
  /\
  run results_down None =
  (Raise RequestException,
   {| state_file := None; trace := [GetSessions; GetResults (VInt 9999)] |}).
Proof.
  split.
  - apply (proj1 (data_source_errors_propagate source_down None
                    RequestException)).
    reflexivity.
  - apply (proj2 (data_source_errors_propagate results_down None
                    RequestException)
             practice_1 (VInt 9999) [(last_posted_session_key, VNone)]).
    + apply race_gate. reflexivity.
    + reflexivity.
Defined.

Lemma non_object_state_raises_at_gate_witness :
  run race_weekend (Some (Json (VList [VInt 9999]))) =
  (Raise AttributeError,
   {| state_file := Some (Json (VList [VInt 9999])); trace := [GetSessions] |}).
Proof.
  apply (@non_object_state_raises_at_gate race_weekend
           (Some (Json (VList [VInt 9999]))) practice_1 (VInt 9999)).
  - reflexivity.
  - reflexivity.
  - reflexivity.
  - intros d H. discriminate H.
Defined.

Lemma unusable_state_file_passes_gate_witness :
  exists rest,
    trace (snd (run race_weekend (Some Garbage)))
    = GetSessions :: GetResults (VInt 9999) :: rest.
Proof.
  apply (@unusable_state_file_passes_gate race_weekend (Some Garbage)
           practice_1 (VInt 9999)).
  - right. reflexivity.
  - reflexivity.
  - reflexivity.
  - reflexivity.
Defined.

Lemma resolver_returns_practice_entry_witness :
  Forall is_dict busy_weekend /\
  ((session 3 "Practice" "2024-08-24T10:30:00+00:00" = VNone /\
    filter is_practice busy_weekend = []) \/
   (In (session 3 "Practice" "2024-08-24T10:30:00+00:00") busy_weekend /\
    is_practice (session 3 "Practice" "2024-08-24T10:30:00+00:00") = true)).
Proof.
  apply (@resolver_returns_practice_entry
           (answering (VList busy_weekend) (VList []))
           {| state_file := None; trace := [] |}
           (session 3 "Practice" "2024-08-24T10:30:00+00:00")
           {| state_file := None; trace := [GetSessions] |}
           (VList busy_weekend) busy_weekend).
  - reflexivity.
  - reflexivity.
  - reflexivity.
Defined.

Lemma malformed_entry_raises_witness :
  get_latest_practice_session
    (answering (VList [practice_1; VStr (lit "maintenance")]) (VList []))
    {| state_file := None; trace := [] |}
  = (Raise AttributeError, {| state_file := None; trace := [GetSessions] |}).
Proof.
  apply (@malformed_entry_raises
           (answering (VList [practice_1; VStr (lit "maintenance")]) (VList []))
           {| state_file := None; trace := [] |}
           [practice_1; VStr (lit "maintenance")]).
  - reflexivity.
  - right. left. intros d H. discriminate H.
Defined.

Lemma single_practice_entry_returned_witness :
  get_latest_practice_session
    (answering (VList odd_weekend) (VList []))
    {| state_file := None; trace := [] |}
  = (Ok odd_practice, {| state_file := None; trace := [GetSessions] |}).
Proof.
  apply (@single_practice_entry_returned
           (answering (VList odd_weekend) (VList []))
           {| state_file := None; trace := [] |} odd_weekend odd_practice).
  - reflexivity.
  - repeat constructor; eexists; reflexivity.
  - reflexivity.
Defined.

Lemma results_are_the_payload_rows_witness :
  exists r rows,
    results_api race_weekend (VInt 9999) = Ok r /\
    iter r = Ok rows /\
    Permutation rows ranked_rows /\
    Forall is_dict ranked_rows.
Proof.
  apply (@results_are_the_payload_rows race_weekend (VInt 9999)
           {| state_file := None; trace := [] |} ranked_rows
           {| state_file := None; trace := [GetResults (VInt 9999)] |}).
  reflexivity.
Defined.

Lemma position_above_sentinel_is_last_witness :
  Forall (fun b => 9999 < order_position b) [placed (VInt 10001)].
Proof.
  apply (@position_above_sentinel_is_last
           (answering (VList [])
              (VList [placed (VInt 10001); placed VNone; placed (VInt 10000)]))
           (VInt 9999)
           [placed (VInt 10001); placed VNone; placed (VInt 10000)]
           {| state_file := None; trace := [] |}
           [placed VNone; placed (VInt 10000); placed (VInt 10001)]
           {| state_file := None; trace := [GetResults (VInt 9999)] |}
           [placed VNone] (placed (VInt 10000)) [placed (VInt 10001)]).
  - reflexivity.
  - repeat constructor; eexists; (split; [reflexivity|exact I]).
  - reflexivity.
  - reflexivity.
  - reflexivity.
Defined.

Lemma mixed_positions_raise_witness :
  get_session_results
    (answering (VList []) (VList [placed (VInt 1); placed (VStr (lit "2"))]))
    (VInt 9999) {| state_file := None; trace := [] |}
  = (Raise TypeError,
     {| state_file := None; trace := [GetResults (VInt 9999)] |}).
Proof.
  apply (@mixed_positions_raise
           (answering (VList []) (VList [placed (VInt 1); placed (VStr (lit "2"))]))
           (VInt 9999) [placed (VInt 1); placed (VStr (lit "2"))]
           {| state_file := None; trace := [] |}).
  - reflexivity.
  - constructor; [left; eexists; split; [reflexivity|exact I]|].
    constructor; [|constructor].
    right. do 3 eexists. split; reflexivity.
  - left. eexists. split; [reflexivity|exact I].
  - right. left. do 3 eexists. split; reflexivity.
Defined.

Lemma format_when_formats_witness :
  format_when (listing 10 amsterdam_clock race_weekend) (VDict practice_1_fields)
  = Ok (VStr (lit "Fri 23 Aug 2024 13:30 CEST")).
Proof.
  apply (@format_when_formats (listing 10 amsterdam_clock race_weekend)
           practice_1_fields (lit "2024-08-23T11:30:00+00:00")
           (lit "Fri 23 Aug 2024 13:30 CEST")).
  - reflexivity.
  - discriminate.
  - reflexivity.
Defined.

Lemma format_when_keeps_non_text_witness :
  format_when (listing 10 amsterdam_clock race_weekend)
    (VDict [(lit "date_end", VInt 1724412600)])
  = Ok (VInt 1724412600).
Proof.
  apply (@format_when_keeps_non_text (listing 10 amsterdam_clock race_weekend)
           [(lit "date_end", VInt 1724412600)] (VInt 1724412600)).
  - reflexivity.
  - reflexivity.
  - intros t H. discriminate H.
Defined.

Lemma posted_title_has_defaults_witness :
  exists when lines,
    format_when race_weekend (VDict practice_1_fields) = Ok when /\
    race_content
    = lit "**" ++ stated_title practice_1_fields (fmt race_weekend when)
      ++ lit "**" ++ [10%N] ++ join [10%N] lines.
Proof.
  apply (@posted_title_has_defaults race_weekend None hook_url race_content
           practice_1_fields).
  - vm_compute. auto.
  - reflexivity.
  - exact I.
  - exact I.
  - exact I.
Defined.

Lemma line_count_follows_slice_witness :
  Z.of_nat (List.length (map stated_line [driver (VInt 2) "Max" "Verstappen" "Red Bull Racing" "1:10.9";
                                          driver (VInt 1) "Lando" "Norris" "McLaren" "1:10.7"]))
  = if TOP_N (listing (-1) amsterdam_clock race_weekend) <? 0
    then Z.max 0 (Z.of_nat (List.length three_rows)
                  + TOP_N (listing (-1) amsterdam_clock race_weekend))
    else Z.min (TOP_N (listing (-1) amsterdam_clock race_weekend))
               (Z.of_nat (List.length three_rows)).
Proof.
  apply (@line_count_follows_slice (listing (-1) amsterdam_clock race_weekend)
           three_rows).
  reflexivity.
Defined.

Lemma junior_is_a_row : result_row (VDict junior).
Proof.
  eexists. split; [reflexivity|].
  split; [eexists; split; [reflexivity|exact I]|].
  repeat split; exact I.
Qed.

Lemma surname_only_is_a_row : result_row (VDict surname_only).
Proof.
  eexists. split; [reflexivity|].
  split; [eexists; split; [reflexivity|exact I]|].
  repeat split; exact I.
Qed.

Lemma name_segment_has_clean_ends_witness :
  (exists rest,
     line_of race_weekend (VDict junior)
     = Ok (position_text junior ++ lit ". " ++ name_segment junior
           ++ lit " " ++ em_dash ++ rest)) /\
  clean_ends (lit ". ") (name_segment junior).
Proof.
  apply (@name_segment_has_clean_ends race_weekend junior).
  apply junior_is_a_row.
Defined.

(** The closing period of the surname is gone from the line. *)
Example junior_line :
  line_of race_weekend (VDict junior)
  = Ok (lit "4. C. Sainz Jr " ++ em_dash ++ lit " Ferrari  ").
Proof. reflexivity. Qed.

Lemma missing_first_name_shows_surname_witness :
  exists rest,
    line_of race_weekend (VDict surname_only)
    = Ok (position_text surname_only ++ lit ". "
          ++ text_field surname_only (lit "driver_last_name")
          ++ lit " " ++ em_dash ++ rest).
Proof.
  apply (@missing_first_name_shows_surname race_weekend surname_only).
  - apply surname_only_is_a_row.
  - reflexivity.
  - split; intros c H; vm_compute in H; injection H as <-; reflexivity.
Defined.
